(** * GovSG WhatsApp callback service

    A shallow embedding of
    [backend/src/govsg/services/govsg-callback.service.ts]
    and the properties of its three parts: the webhook classifier
    ([parseWebhook]), status reconciliation
    ([parseTemplateMessageWebhook]) and the auto-reply decision
    ([parseUserMessageWebhook], [shouldSendAutoReply], [matchAnyRegex],
    [sendAutoReply]).

    Modelling conventions.
    - A webhook body is an untyped JavaScript value ([JsValue]).  Numbers
      are safe integers ([Js.within]); an object is an association list
      read at its first binding of a key.
    - A JavaScript string is a Rocq [string]; one [ascii] stands for one
      code unit in the range 0..255.  Code units above 255 are outside the
      model, and no property below rests on lower-casing keeping the
      length of a string, which holds on this range only.
    - A lookup by message id is modelled for string ids.  For any other id
      [find_row] finds no row; what the query layer does with such an id
      (it refuses [undefined]) is outside the model, and no property
      below concludes a normal return from such a lookup.
    - Side effects (the two tables, the outbound client, the logger) are
      threaded through a state-and-exception monad [M].  A fire-and-forget
      [void row.update(..)] is modelled as the update being issued and
      applied, a call of the outbound client as made and accepted.
    - What the file imports and does not define is a variable of the
      section [Service]: the configured environment, the clock, the status
      mapper and the regular expression engine, which may throw.  The
      engine of the run time, [RegExp_prototype_test], is a derivative
      matcher, proved below to decide the words of a pattern. *)

From Stdlib Require Import ZArith String Ascii List Bool Lia DecimalString.
From stdpp Require Import base list.

Local Open Scope string_scope.
Local Open Scope nat_scope.
Local Open Scope list_scope.

Infix "+:+" := String.append (at level 60, right associativity).

(** ** Strings *)

Module Str.

Definition code (c : ascii) : nat := nat_of_ascii c.

(** [String.prototype.toLowerCase] on one code unit of the range 0..255:
    A-Z, and the Latin-1 capitals U+00C0..U+00DE except the multiplication
    sign U+00D7, move up by 32.  (Beyond this range lower-casing can
    change the number of code units, as for U+0130.) *)
Definition lower_char (c : ascii) : ascii :=
  let n := code c in
  if ((65 <=? n) && (n <=? 90)) || ((192 <=? n) && (n <=? 222) && negb (n =? 215))
  then ascii_of_nat (n + 32) else c.

Fixpoint toLowerCase (s : string) : string :=
  match s with
  | EmptyString => EmptyString
  | String c s' => String (lower_char c) (toLowerCase s')
  end.

(** [Canonicalize] of a regular expression with the [i] flag and without
    the [u] flag: the code unit is upper-cased; a-z and the Latin-1 small
    letters U+00E0..U+00FE except the division sign U+00F7 move down by 32.
    (U+00B5 and U+00FF upper-case to code units above 255 that no other
    code unit of the range reaches, U+00DF to two code units: all three
    stay themselves.) *)
Definition canonicalize (c : ascii) : ascii :=
  let n := code c in
  if ((97 <=? n) && (n <=? 122)) || ((224 <=? n) && (n <=? 254) && negb (n =? 247))
  then ascii_of_nat (n - 32) else c.

(** Line terminators among the code units 0..255: LF and CR. *)
Definition is_line_terminator (c : ascii) : bool :=
  (code c =? 10) || (code c =? 13).

Fixpoint filter (keep : ascii -> bool) (s : string) : string :=
  match s with
  | EmptyString => EmptyString
  | String c s' => if keep c then String c (filter keep s') else filter keep s'
  end.

Fixpoint mem (c : ascii) (s : string) : bool :=
  match s with
  | EmptyString => false
  | String d s' => Ascii.eqb c d || mem c s'
  end.

(** [contains w s]: [w] occurs in [s] as a contiguous substring. *)
Definition contains (w s : string) : Prop :=
  exists pre post, s = pre +:+ w +:+ post.

(** A decision procedure for [contains]. *)
Fixpoint prefixb (w s : string) : bool :=
  match w, s with
  | EmptyString, _ => true
  | String a w', String b s' => Ascii.eqb a b && prefixb w' s'
  | String _ _, EmptyString => false
  end.

Fixpoint infixb (w s : string) : bool :=
  prefixb w s ||
  match s with
  | EmptyString => false
  | String _ s' => infixb w s'
  end.

End Str.

(** ** Untyped JavaScript values *)

#[warnings="-register-all"]
Inductive JsValue : Type :=
| JUndefined
| JNull
| JBool (b : bool)
| JNumber (n : Z)
| JString (s : string)
| JArray (elems : list JsValue)
| JObject (props : list (string * JsValue)).

Module Js.

Fixpoint lookup (k : string) (props : list (string * JsValue)) : option JsValue :=
  match props with
  | [] => None
  | (k', v) :: rest => if String.eqb k k' then Some v else lookup k rest
  end.

(** [!v] is [negb (truthy v)]. *)
Definition truthy (v : JsValue) : bool :=
  match v with
  | JUndefined | JNull => false
  | JBool b => b
  | JNumber n => negb (n =? 0)%Z
  | JString s => negb (String.eqb s "")
  | JArray _ | JObject _ => true
  end.

(** [typeof v === 'object'] *)
Definition typeof_object (v : JsValue) : bool :=
  match v with
  | JNull | JArray _ | JObject _ => true
  | _ => false
  end.

(** [k in v] for a value [v] that passed the object test, and a key [k]
    that is neither an array index, nor [length], nor a member of a
    built-in prototype (the keys asked for are [statuses], [messages] and
    [contacts]). *)
Definition has (k : string) (v : JsValue) : bool :=
  match v with
  | JObject props => match lookup k props with Some _ => true | None => false end
  | _ => false
  end.

(** [v.k], for a key [k] that no built-in prototype defines apart from
    [length].  [None] is the [TypeError] of reading a property of
    [undefined] or [null]; destructuring [const { k } = v] behaves the
    same. *)
Definition get (v : JsValue) (k : string) : option JsValue :=
  match v with
  | JUndefined | JNull => None
  | JObject props =>
      Some (match lookup k props with Some x => x | None => JUndefined end)
  | JArray l =>
      Some (if String.eqb k "length" then JNumber (Z.of_nat (length l)) else JUndefined)
  | JString s =>
      Some (if String.eqb k "length" then JNumber (Z.of_nat (String.length s)) else JUndefined)
  | JBool _ | JNumber _ => Some JUndefined
  end.

(** [v[0]] *)
Definition first (v : JsValue) : option JsValue :=
  match v with
  | JUndefined | JNull => None
  | JArray l => Some (match l with x :: _ => x | [] => JUndefined end)
  | JString s =>
      Some (match s with String c _ => JString (String c "") | EmptyString => JUndefined end)
  | JObject props =>
      Some (match lookup "0" props with Some x => x | None => JUndefined end)
  | JBool _ | JNumber _ => Some JUndefined
  end.

(** [Number.isSafeInteger]: an integer of magnitude at most 2^53 - 1.  The
    numbers of the code are doubles; [JNumber n] stands for one when [n]
    is a safe integer, and only then is its decimal form what
    [toString] gives (from 1e21 on [toString] writes an exponent, and
    above 2^53 a double holds a rounded value). *)
Definition safe_integer (n : Z) : bool := (Z.abs n <=? 9007199254740991)%Z.

(** A value the model stands for: every number in it is a safe
    integer. *)
Fixpoint within (v : JsValue) : bool :=
  match v with
  | JNumber n => safe_integer n
  | JArray l => forallb within l
  | JObject props =>
      forallb (fun kv => match kv with (_, x) => within x end) props
  | _ => true
  end.

(** The decimal form of an integer: [String(n)] for a safe integer [n]. *)
Definition string_of_Z (n : Z) : string := NilZero.string_of_int (Z.to_int n).

(** [String(v)], the conversion a template literal applies, for a value
    [within] the model.  An object
    decoded from JSON converts through [Object.prototype.toString] unless
    it carries a [toString] property of its own, which is then not
    callable: [None] is that [TypeError].  An array joins its elements
    with commas, [undefined] and [null] giving the empty string. *)
Fixpoint to_string (v : JsValue) : option string :=
  match v with
  | JUndefined => Some "undefined"
  | JNull => Some "null"
  | JBool true => Some "true"
  | JBool false => Some "false"
  | JNumber n => Some (string_of_Z n)
  | JString s => Some s
  | JArray l =>
      (fix join (l : list JsValue) : option string :=
         match l with
         | [] => Some ""
         | x :: rest =>
             let sx := match x with
                       | JUndefined | JNull => Some ""
                       | _ => to_string x
                       end in
             match rest with
             | [] => sx
             | _ => match sx, join rest with
                    | Some a, Some b => Some (a +:+ "," +:+ b)
                    | _, _ => None
                    end
             end
         end) l
  | JObject props =>
      match lookup "toString" props with
      | Some _ => None
      | None => Some "[object Object]"
      end
  end.

(** [v.toString()]: as [String(v)], except that [undefined] and [null]
    have no such method. *)
Definition toString_method (v : JsValue) : option string :=
  match v with
  | JUndefined | JNull => None
  | _ => to_string v
  end.

End Js.

(** ** Regular expressions

    The six literals of [shouldSendAutoReply] use literal characters, the
    dot and a postfix star.  [compile] reads such a source text;
    [test] decides, by derivatives, whether the pattern matches somewhere
    in the input, which is what [RegExp.prototype.test] answers for a
    pattern without the [g] and [y] flags. *)

Module Re.

Inductive Pattern : Type :=
| PFail
| PEmpty
| PChar (c : ascii)
| PDot
| PSeq (p q : Pattern)
| PAlt (p q : Pattern)
| PStar (p : Pattern).

Record RegExp : Type := mkRegExp { source : string; ignoreCase : bool }.

Definition atom (c : ascii) : Pattern :=
  if Ascii.eqb c "."%char then PDot else PChar c.

Fixpoint compile (src : string) : Pattern :=
  match src with
  | EmptyString => PEmpty
  | String c rest =>
      match rest with
      | String "*"%char rest' => PSeq (PStar (atom c)) (compile rest')
      | _ => PSeq (atom c) (compile rest)
      end
  end.

(** A pattern character against an input code unit. *)
Definition char_match (i : bool) (a c : ascii) : bool :=
  if i then Ascii.eqb (Str.canonicalize a) (Str.canonicalize c) else Ascii.eqb a c.

Fixpoint nullable (p : Pattern) : bool :=
  match p with
  | PFail | PChar _ | PDot => false
  | PEmpty | PStar _ => true
  | PSeq p q => nullable p && nullable q
  | PAlt p q => nullable p || nullable q
  end.

Fixpoint deriv (i : bool) (c : ascii) (p : Pattern) : Pattern :=
  match p with
  | PFail | PEmpty => PFail
  | PChar a => if char_match i a c then PEmpty else PFail
  | PDot => if Str.is_line_terminator c then PFail else PEmpty
  | PSeq p q =>
      if nullable p then PAlt (PSeq (deriv i c p) q) (deriv i c q)
      else PSeq (deriv i c p) q
  | PAlt p q => PAlt (deriv i c p) (deriv i c q)
  | PStar p => PSeq (deriv i c p) (PStar p)
  end.

(** Some prefix of [s] matches [p]. *)
Fixpoint match_prefix (i : bool) (p : Pattern) (s : string) : bool :=
  nullable p ||
  match s with
  | EmptyString => false
  | String c s' => match_prefix i (deriv i c p) s'
  end.

(** [p] matches at some position of [s]. *)
Fixpoint search (i : bool) (p : Pattern) (s : string) : bool :=
  match_prefix i p s ||
  match s with
  | EmptyString => false
  | String _ s' => search i p s'
  end.

Definition test (r : RegExp) (input : string) : bool :=
  search (ignoreCase r) (compile (source r)) input.

(** The words a pattern denotes. *)
Inductive matches (i : bool) : Pattern -> string -> Prop :=
| m_empty : matches i PEmpty ""
| m_char a c : char_match i a c = true -> matches i (PChar a) (String c "")
| m_dot c : Str.is_line_terminator c = false -> matches i PDot (String c "")
| m_seq p q u v : matches i p u -> matches i q v -> matches i (PSeq p q) (u +:+ v)
| m_alt_l p q u : matches i p u -> matches i (PAlt p q) u
| m_alt_r p q u : matches i q u -> matches i (PAlt p q) u
| m_star_nil p : matches i (PStar p) ""
| m_star_cons p c u v :
    matches i p (String c u) -> matches i (PStar p) v ->
    matches i (PStar p) (String c u +:+ v).

End Re.

(** ** Vocabulary of the provider and of the local tables *)

Module WhatsAppMessageStatus.

Inductive t : Type := warning | failed | sent | delivered | read | deleted.

(** Modelled from the spec: the enum is declared in
    [whatsapp-client.class/types], which is not part of this file; the run-time
    value of a member is the wire string the spec writes for it
    ([status:"delivered"], "a [failed] status", ...). *)
Definition value (m : t) : string :=
  match m with
  | warning => "warning"
  | failed => "failed"
  | sent => "sent"
  | delivered => "delivered"
  | read => "read"
  | deleted => "deleted"
  end.

(** [case m:] of a [switch], which compares with [===]. *)
Definition strict_eq (m : t) (v : JsValue) : bool :=
  match v with
  | JString s => String.eqb s (value m)
  | _ => false
  end.

End WhatsAppMessageStatus.

(** Modelled from the spec: [WhatsappWebhookMessageType.text], declared in
    [whatsapp-client.class/types]; the spec names the message type [text]. *)
Definition WhatsappWebhookMessageType_text : string := "text".

(** Modelled from the spec: [WhatsAppLanguages], declared in
    [whatsapp-client.class/types]; the auto-reply uses its member
    [english], the spec's "fixed language". *)
Inductive WhatsAppLanguages : Type := english.

(** Modelled from the spec: the local status vocabulary of
    [@core/constants], the codomain of [govsgMessageStatusMapper]; a value
    of a string enum (the spec's [DELIVERED]). *)
Definition GovsgMessageStatus : Type := string.

(** [WhatsAppApiClient], the identifier of the provider account a webhook
    came through; it is only passed on. *)
Definition WhatsAppApiClient : Type := string.

(** A time stamp, the value of [new Date()]. *)
Definition Date : Type := Z.

(** ** Records of the two tables *)

(** A row of [GovsgMessage] or of [GovsgMessageTransactional]: its key and
    the columns this service writes. *)
Record GovsgMessage : Type := mkGovsgMessage {
  serviceProviderMessageId : string;
  status : GovsgMessageStatus;
  sentAt : option Date;
  deliveredAt : option Date;
  readAt : option Date;
  deletedAt : option Date;
  erroredAt : option Date;
  errorCode : option string;
  errorDescription : option string
}.

(** The object literal [fieldOpts]: the columns it names. *)
Record FieldOpts : Type := mkFieldOpts {
  f_status : option GovsgMessageStatus;
  f_sentAt : option Date;
  f_deliveredAt : option Date;
  f_readAt : option Date;
  f_deletedAt : option Date;
  f_erroredAt : option Date;
  f_errorCode : option string;
  f_errorDescription : option string
}.

Definition overwrite {A} (new : option A) (old : A) : A :=
  match new with Some a => a | None => old end.

Definition overwrite_opt {A} (new : option A) (old : option A) : option A :=
  match new with Some a => Some a | None => old end.

(** What [row.update(fieldOpts)] writes: the named columns, and no other. *)
Definition apply_fields (f : FieldOpts) (r : GovsgMessage) : GovsgMessage :=
  {| serviceProviderMessageId := serviceProviderMessageId r;
     status := overwrite (f_status f) (status r);
     sentAt := overwrite_opt (f_sentAt f) (sentAt r);
     deliveredAt := overwrite_opt (f_deliveredAt f) (deliveredAt r);
     readAt := overwrite_opt (f_readAt f) (readAt r);
     deletedAt := overwrite_opt (f_deletedAt f) (deletedAt r);
     erroredAt := overwrite_opt (f_erroredAt f) (erroredAt r);
     errorCode := overwrite_opt (f_errorCode f) (errorCode r);
     errorDescription := overwrite_opt (f_errorDescription f) (errorDescription r) |}.

Inductive Table : Type := Ordinary | Transactional.

(** One call of [update] on a row found by [findOne]. *)
Record UpdateCall : Type := mkUpdateCall {
  u_table : Table;
  u_row : nat;
  u_fields : FieldOpts;
  u_where : JsValue
}.

(** ** The outbound client *)

Record WhatsAppTemplateMessageToSend : Type := mkTemplateMessage {
  t_recipient : JsValue;
  t_apiClient : WhatsAppApiClient;
  templateName : string;
  params : list JsValue;
  language : WhatsAppLanguages
}.

Record WhatsAppTextMessageToSend : Type := mkTextMessage {
  x_recipient : JsValue;
  x_apiClient : WhatsAppApiClient;
  x_body : string
}.

Inductive OutboundCall : Type :=
| SendTemplateMessage (m : WhatsAppTemplateMessageToSend) (isLocal : bool)
| SendTextMessage (m : WhatsAppTextMessageToSend).

Definition recipient_of (c : OutboundCall) : JsValue :=
  match c with
  | SendTemplateMessage m _ => t_recipient m
  | SendTextMessage m => x_recipient m
  end.

(** ** The logger *)

Inductive LogLevel : Type := Info | Warn | Err.

Record LogEntry : Type := mkLog { level : LogLevel; entry : JsValue }.

(** ** The world a call runs in, and its monad *)

Record World : Type := mkWorld {
  govsgMessages : list GovsgMessage;
  govsgMessagesTransactional : list GovsgMessage;
  updateCalls : list UpdateCall;
  outbound : list OutboundCall;
  logs : list LogEntry
}.

Inductive Exception : Type :=
| UnexpectedWebhookError (message : string)
| JsError (message : string)
| TypeError.

Inductive Result (A : Type) : Type :=
| Ok (a : A)
| Threw (e : Exception).
Arguments Ok {A} a.
Arguments Threw {A} e.

Definition M (A : Type) : Type := World -> Result A * World.

Definition ret {A} (a : A) : M A := fun w => (Ok a, w).

Definition throw {A} (e : Exception) : M A := fun w => (Threw e, w).

Definition bind {A B} (m : M A) (k : A -> M B) : M B :=
  fun w =>
    match m w with
    | (Ok a, w') => k a w'
    | (Threw e, w') => (Threw e, w')
    end.

Notation "'let*' x ':=' m 'in' k" := (bind m (fun x => k))
  (at level 10, x name, m at level 100, k at level 200).
Notation "m ;; k" := (bind m (fun _ => k))
  (at level 100, k at level 200, right associativity).

(** A property read that throws [TypeError] on [undefined] and [null]. *)
Definition orTypeError {A} (o : option A) : M A :=
  match o with
  | Some a => ret a
  | None => throw TypeError
  end.

Definition log (l : LogLevel) (e : JsValue) : M unit :=
  fun w =>
    (Ok tt,
     {| govsgMessages := govsgMessages w;
        govsgMessagesTransactional := govsgMessagesTransactional w;
        updateCalls := updateCalls w;
        outbound := outbound w;
        logs := logs w ++ [mkLog l e] |}).

Definition send (c : OutboundCall) : M unit :=
  fun w =>
    (Ok tt,
     {| govsgMessages := govsgMessages w;
        govsgMessagesTransactional := govsgMessagesTransactional w;
        updateCalls := updateCalls w;
        outbound := outbound w ++ [c];
        logs := logs w |}).

Definition table_of (t : Table) (w : World) : list GovsgMessage :=
  match t with
  | Ordinary => govsgMessages w
  | Transactional => govsgMessagesTransactional w
  end.

(** The first row whose key is the string [messageId].  For a
    [messageId] that is not a string the answer, no row, is a convention:
    the query layer decides what happens then, and the properties that
    conclude from a lookup are stated for string ids. *)
Fixpoint find_row (messageId : JsValue) (rows : list GovsgMessage) : option nat :=
  match rows with
  | [] => None
  | r :: rest =>
      match messageId with
      | JString s =>
          if String.eqb (serviceProviderMessageId r) s then Some 0
          else option_map S (find_row messageId rest)
      | _ => None
      end
  end.

(** [Model.findOne({ where: { serviceProviderMessageId: messageId } })] *)
Definition findOne (t : Table) (messageId : JsValue) : M (option nat) :=
  fun w => (Ok (find_row messageId (table_of t w)), w).

(** [row?.update(fieldOpts, whereOpts)] on the result of [findOne]. *)
Definition update (t : Table) (row : option nat) (fieldOpts : FieldOpts)
    (whereOpts : JsValue) : M unit :=
  fun w =>
    match row with
    | None => (Ok tt, w)
    | Some i =>
        let call := mkUpdateCall t i fieldOpts whereOpts in
        (Ok tt,
         match t with
         | Ordinary =>
             {| govsgMessages := alter (apply_fields fieldOpts) i (govsgMessages w);
                govsgMessagesTransactional := govsgMessagesTransactional w;
                updateCalls := updateCalls w ++ [call];
                outbound := outbound w;
                logs := logs w |}
         | Transactional =>
             {| govsgMessages := govsgMessages w;
                govsgMessagesTransactional :=
                  alter (apply_fields fieldOpts) i (govsgMessagesTransactional w);
                updateCalls := updateCalls w ++ [call];
                outbound := outbound w;
                logs := logs w |}
         end)
    end.

(** ** validator.js *)

(** The members of the character class [[chars]]; a backslash makes the
    next character literal (the escapes in use are [\/], [\\] and [\]]). *)
Fixpoint class_members (chars : string) : string :=
  match chars with
  | EmptyString => EmptyString
  | String c rest =>
      if Ascii.eqb c "\"%char then
        match rest with
        | String d rest' => String d (class_members rest')
        | EmptyString => EmptyString
        end
      else String c (class_members rest)
  end.

(** [validator.blacklist(str, chars)] is
    [assertString(str); str.replace(new RegExp('[' + chars + ']+', 'g'), '')]:
    a [TypeError] for an input that is not a string, otherwise the input
    without the members of the class. *)
Definition validator_blacklist (str : JsValue) (chars : string) : option string :=
  match str with
  | JString s => Some (Str.filter (fun c => negb (Str.mem c (class_members chars))) s)
  | _ => None
  end.

(** ** The service *)

(** What [RegExp.prototype.test] may do: answer, or throw. *)
Inductive Outcome : Type :=
| Returns (b : bool)
| Throws (error : JsValue).

Definition obj (props : list (string * JsValue)) : JsValue := JObject props.
Definition str (s : string) : JsValue := JString s.

Section Service.

(** [config.get('env')] *)
Variable config_env : string.

(** The value of [new Date()] during the call. *)
Variable now : Date.

(** [govsgMessageStatusMapper] of [@core/constants]. *)
Variable govsgMessageStatusMapper : WhatsAppMessageStatus.t -> GovsgMessageStatus.

(** The regular expression engine behind [validation.test(input)]. *)
Variable regexp_test : Re.RegExp -> string -> Outcome.

(** [config.get('whatsapp.callbackVerifyToken')] *)
Variable callbackVerifyToken : string.

Definition isAuthenticated (token : string) : bool :=
  let verifyToken := callbackVerifyToken in
  String.eqb token verifyToken.

(** The [for] loop of [matchAnyRegex], inside its [try]. *)
Fixpoint matchAnyRegex_try (input : string) (validations : list Re.RegExp) : Outcome :=
  match validations with
  | [] => Returns false
  | validation :: rest =>
      match regexp_test validation input with
      | Returns true => Returns true
      | Returns false => matchAnyRegex_try input rest
      | Throws error => Throws error
      end
  end.

Definition matchAnyRegex (input : string) (validations : list Re.RegExp) : M bool :=
  match matchAnyRegex_try input validations with
  | Returns b => ret b
  | Throws error =>
      log Err (obj [("errorTitle", str "Error validating user input"); ("error", error)]) ;;
      (* default to returning true, so that auto-reply will not be sent *)
      ret true
  end.

Definition suppressionPatterns : list Re.RegExp :=
  [ Re.mkRegExp "auto.reply" true;
    Re.mkRegExp "thank" true;
    Re.mkRegExp "received your message" true;
    Re.mkRegExp "http" true;
    Re.mkRegExp "out.of.office" true;
    Re.mkRegExp "dear customer*" true ].

Definition shouldSendAutoReply (messageBody : string) : M bool :=
  if (256 <? String.length messageBody) || (String.length messageBody =? 0) then
    ret false
  else
    let* matchedRegex := matchAnyRegex (Str.toLowerCase messageBody) suppressionPatterns in
    if matchedRegex then ret false else ret true.

(** The free-text acknowledgement.  Its apostrophe is U+2019, which this
    constant holds as the three bytes of its UTF-8 form. *)
Definition autoReplyText : string :=
  "If you are inquiring about COVID-19 updates, the COVID-19 infobot is temporarily unavailable due to maintenance work. For more COVID-19 related information, please visit the Ministry of Health’s website at moh.gov.sg. Thank you".

Definition sendAutoReply (whatsappId : JsValue) (clientId : WhatsAppApiClient) : M unit :=
  let isLocal := String.eqb config_env "development" in
  if isLocal then
    let templateMessageToSend :=
      {| t_recipient := whatsappId;
         t_apiClient := clientId;
         templateName := "2019covid19_ack";
         params := [];
         language := english |} in
    send (SendTemplateMessage templateMessageToSend isLocal)
  else
    let textMessageToSend :=
      {| x_recipient := whatsappId;
         x_apiClient := clientId;
         x_body := autoReplyText |} in
    send (SendTextMessage textMessageToSend).

Definition blacklisted : string := "\/\\[\]<>()*".

Definition parseUserMessageWebhook (body : JsValue) (clientId : WhatsAppApiClient) : M unit :=
  let* contacts := orTypeError (Js.get body "contacts") in
  let* contact := orTypeError (Js.first contacts) in
  let* whatsappId := orTypeError (Js.get contact "wa_id") in
  let* messages := orTypeError (Js.get body "messages") in
  let* message := orTypeError (Js.first messages) in
  let* messageId := orTypeError (Js.get message "id") in
  let* type := orTypeError (Js.get message "type") in
  if negb (match type with
           | JString t => String.eqb t WhatsappWebhookMessageType_text
           | _ => false
           end) then
    (* not text message, log and ignore *)
    log Info (obj [("message", str "Received webhook for non-text message");
                   ("meta", obj [("whatsappId", whatsappId);
                                 ("messageId", messageId);
                                 ("type", type)])])
  else
    let* text := orTypeError (Js.get message "text") in
    let* rawMessageBody := orTypeError (Js.get text "body") in
    let* sanitisedMessageBody := orTypeError (validator_blacklist rawMessageBody blacklisted) in
    let* autoReplyNeeded := shouldSendAutoReply sanitisedMessageBody in
    if negb autoReplyNeeded then ret tt
    else
      log Info (obj [("message", str "Sending auto reply");
                     ("meta", obj [("whatsappId", whatsappId);
                                   ("messageId", messageId);
                                   ("messageBody", str sanitisedMessageBody)])]) ;;
      sendAutoReply whatsappId clientId.

(** The [case] labels of the [switch], in the order they are tried. *)
Definition switch_status (whatsappStatus : JsValue) : option WhatsAppMessageStatus.t :=
  if WhatsAppMessageStatus.strict_eq WhatsAppMessageStatus.warning whatsappStatus
  then Some WhatsAppMessageStatus.warning
  else if WhatsAppMessageStatus.strict_eq WhatsAppMessageStatus.failed whatsappStatus
  then Some WhatsAppMessageStatus.failed
  else if WhatsAppMessageStatus.strict_eq WhatsAppMessageStatus.sent whatsappStatus
  then Some WhatsAppMessageStatus.sent
  else if WhatsAppMessageStatus.strict_eq WhatsAppMessageStatus.delivered whatsappStatus
  then Some WhatsAppMessageStatus.delivered
  else if WhatsAppMessageStatus.strict_eq WhatsAppMessageStatus.read whatsappStatus
  then Some WhatsAppMessageStatus.read
  else if WhatsAppMessageStatus.strict_eq WhatsAppMessageStatus.deleted whatsappStatus
  then Some WhatsAppMessageStatus.deleted
  else None.

Definition update_both (govsgMessage govsgMessageTransactional : option nat)
    (fieldOpts : FieldOpts) (whereOpts : JsValue) : M unit :=
  update Ordinary govsgMessage fieldOpts whereOpts ;;
  update Transactional govsgMessageTransactional fieldOpts whereOpts.

Definition parseTemplateMessageWebhook (body : JsValue) : M unit :=
  let* statuses := orTypeError (Js.get body "statuses") in
  let* status0 := orTypeError (Js.first statuses) in
  let* messageId := orTypeError (Js.get status0 "id") in
  let* govsgMessage := findOne Ordinary messageId in
  let* govsgMessageTransactional := findOne Transactional messageId in
  match govsgMessage, govsgMessageTransactional with
  | None, None =>
      (* no match found, assume it's a Standard Reply webhook, safe to ignore *)
      log Info
        (obj [("message",
               str "Received webhook for message not in GovsgMessage or GovsgMessageTransactional");
              ("meta", obj [("messageId", messageId)])])
  | Some _, Some _ =>
      (* this should basically never happen *)
      log Err (obj [("message", str "Received webhook for message that exists in both tables");
                    ("meta", obj [("messageId", messageId)])]) ;;
      throw (UnexpectedWebhookError "Received webhook for message that exists in both tables")
  | _, _ =>
      let* whatsappStatus := orTypeError (Js.get status0 "status") in
      let whereOpts := obj [("where", obj [("serviceProviderMessageId", messageId)])] in
      match switch_status whatsappStatus with
      | Some WhatsAppMessageStatus.warning =>
          (* no corresponding status to update *)
          log Warn (obj [("message", str "Received webhook with warning status");
                         ("meta", obj [("messageId", messageId); ("body", body)])])
      | Some WhatsAppMessageStatus.failed =>
          log Info (obj [("message", str "Received webhook with error status")]) ;;
          let* errors := orTypeError (Js.get body "errors") in
          let* noDetails :=
            (if negb (Js.truthy errors) then ret true
             else
               let* len := orTypeError (Js.get errors "length") in
               ret (match len with JNumber n => (n =? 0)%Z | _ => false end)) in
          if (noDetails : bool) then
            log Err (obj [("message",
                           str "Received webhook with error status but no error details");
                          ("meta", obj [("messageId", messageId); ("body", body)])]) ;;
            let fieldOpts :=
              {| f_status := Some (govsgMessageStatusMapper WhatsAppMessageStatus.failed);
                 f_sentAt := None; f_deliveredAt := None; f_readAt := None;
                 f_deletedAt := None;
                 f_erroredAt := Some now;
                 f_errorCode := None; f_errorDescription := None |} in
            update_both govsgMessage govsgMessageTransactional fieldOpts whereOpts
          else
            let* error0 := orTypeError (Js.first errors) in
            let* code := orTypeError (Js.get error0 "code") in
            let* title := orTypeError (Js.get error0 "title") in
            let* details := orTypeError (Js.get error0 "details") in
            let* href := orTypeError (Js.get error0 "href") in
            let* errorCode := orTypeError (Js.toString_method code) in
            let* title_s := orTypeError (Js.to_string title) in
            let* details_s := orTypeError (Js.to_string details) in
            let* href_s := orTypeError (Js.to_string href) in
            let errorDescription := title_s +:+ " Details: " +:+ details_s +:+ " href: " +:+ href_s in
            let fieldOpts :=
              {| f_status := Some (govsgMessageStatusMapper WhatsAppMessageStatus.failed);
                 f_sentAt := None; f_deliveredAt := None; f_readAt := None;
                 f_deletedAt := None;
                 f_erroredAt := Some now;
                 f_errorCode := Some errorCode;
                 f_errorDescription := Some errorDescription |} in
            update_both govsgMessage govsgMessageTransactional fieldOpts whereOpts
      | Some WhatsAppMessageStatus.sent =>
          let fieldOpts :=
            {| f_status := Some (govsgMessageStatusMapper WhatsAppMessageStatus.sent);
               f_sentAt := Some now;
               f_deliveredAt := None; f_readAt := None; f_deletedAt := None;
               f_erroredAt := None; f_errorCode := None; f_errorDescription := None |} in
          update_both govsgMessage govsgMessageTransactional fieldOpts whereOpts
      | Some WhatsAppMessageStatus.delivered =>
          let fieldOpts :=
            {| f_status := Some (govsgMessageStatusMapper WhatsAppMessageStatus.delivered);
               f_sentAt := None;
               f_deliveredAt := Some now;
               f_readAt := None; f_deletedAt := None;
               f_erroredAt := None; f_errorCode := None; f_errorDescription := None |} in
          update_both govsgMessage govsgMessageTransactional fieldOpts whereOpts
      | Some WhatsAppMessageStatus.read =>
          let fieldOpts :=
            {| f_status := Some (govsgMessageStatusMapper WhatsAppMessageStatus.read);
               f_sentAt := None; f_deliveredAt := None;
               f_readAt := Some now;
               f_deletedAt := None;
               f_erroredAt := None; f_errorCode := None; f_errorDescription := None |} in
          update_both govsgMessage govsgMessageTransactional fieldOpts whereOpts
      | Some WhatsAppMessageStatus.deleted =>
          let fieldOpts :=
            {| f_status := Some (govsgMessageStatusMapper WhatsAppMessageStatus.deleted);
               f_sentAt := None; f_deliveredAt := None; f_readAt := None;
               f_deletedAt := Some now;
               f_erroredAt := None; f_errorCode := None; f_errorDescription := None |} in
          update_both govsgMessage govsgMessageTransactional fieldOpts whereOpts
      | None =>
          let* exhaustiveCheck := orTypeError (Js.to_string whatsappStatus) in
          throw (JsError ("Unhandled status: " +:+ exhaustiveCheck))
      end
  end.

Definition parseWebhook (body : JsValue) (clientId : WhatsAppApiClient) : M unit :=
  let action := "parseWebhook" in
  log Info (obj [("message", str "Received webhook from WhatsApp"); ("action", str action)]) ;;
  if negb (Js.truthy body) || negb (Js.typeof_object body) then
    log Err (obj [("message", str "Unexpected webhook body");
                  ("action", str action); ("body", body)]) ;;
    throw (UnexpectedWebhookError "Unexpected webhook body")
  else if Js.has "statuses" body then
    log Info (obj [("message", str "Received status webhook from WhatsApp");
                   ("action", str action)]) ;;
    parseTemplateMessageWebhook body
  else if Js.has "messages" body && Js.has "contacts" body then
    log Info (obj [("message", str "Received message webhook from WhatsApp");
                   ("action", str action)]) ;;
    parseUserMessageWebhook body clientId
  else
    (* body is an object but doesn't have the expected keys *)
    log Err (obj [("message", str "Unexpected webhook body");
                  ("action", str action); ("body", body)]) ;;
    throw (UnexpectedWebhookError "Unexpected webhook body").

End Service.

(** The engine of the run time: [test] answers, and never throws, on the
    patterns of this file. *)
Definition RegExp_prototype_test (r : Re.RegExp) (input : string) : Outcome :=
  Returns (Re.test r input).

Definition emptyWorld : World := mkWorld [] [] [] [] [].

(** ** Vocabulary of the properties *)

(** The event a status webhook carries, [body.statuses[0]], and its
    fields. *)
Definition statusEvent (body : JsValue) : option JsValue :=
  Js.get body "statuses" ≫= Js.first.

Definition eventMessageId (body : JsValue) : option JsValue :=
  statusEvent body ≫= fun e => Js.get e "id".

Definition eventStatus (body : JsValue) : option JsValue :=
  statusEvent body ≫= fun e => Js.get e "status".

(** The errors of a status event where the wire shape of the
    specification puts them: inside the status element. *)
Definition eventErrors (body : JsValue) : option JsValue :=
  statusEvent body ≫= fun e => Js.get e "errors".

(** The errors the code reads: next to [statuses], at the top of the
    body. *)
Definition bodyErrors (body : JsValue) : option JsValue :=
  Js.get body "errors".

(** The event a message webhook carries: [body.contacts[0].wa_id],
    [body.messages[0].id] and, for a message of type [text],
    [body.messages[0].text.body]. *)
Definition senderId (body : JsValue) : option JsValue :=
  (Js.get body "contacts" ≫= Js.first) ≫= fun c => Js.get c "wa_id".

Definition inboundMessage (body : JsValue) : option JsValue :=
  Js.get body "messages" ≫= Js.first.

Definition inboundMessageId (body : JsValue) : option JsValue :=
  inboundMessage body ≫= fun m => Js.get m "id".

Definition inboundText (body : JsValue) : option string :=
  inboundMessage body ≫= fun m =>
  match Js.get m "type" with
  | Some (JString t) =>
      if String.eqb t WhatsappWebhookMessageType_text then
        match Js.get m "text" ≫= fun t => Js.get t "body" with
        | Some (JString raw) => Some raw
        | _ => None
        end
      else None
  | _ => None
  end.

(** The sanitised form of a text body. *)
Definition sanitise (raw : string) : string :=
  Str.filter (fun c => negb (Str.mem c "/\[]<>()*")) raw.

(** No row was written and no update was issued between [w] and [w']. *)
Definition no_update (w w' : World) : Prop :=
  govsgMessages w' = govsgMessages w /\
  govsgMessagesTransactional w' = govsgMessagesTransactional w /\
  updateCalls w' = updateCalls w.

(** [w'] is [w] with more log entries, and nothing else. *)
Definition only_logged (w w' : World) : Prop :=
  no_update w w' /\ outbound w' = outbound w /\
  exists entries, logs w' = logs w ++ entries.

(** The names the specification gives to the three failures. *)
Definition MalformedWebhookError : Exception :=
  UnexpectedWebhookError "Unexpected webhook body".

Definition InvariantViolationError : Exception :=
  UnexpectedWebhookError "Received webhook for message that exists in both tables".

Definition UnhandledStatusError (status : string) : Exception :=
  JsError ("Unhandled status: " +:+ status).

(** The table a message id is not expected in, once found in [t]. *)
Definition other (t : Table) : Table :=
  match t with
  | Ordinary => Transactional
  | Transactional => Ordinary
  end.

(** The row [r] with a new status and the time stamp of [m] set; every
    other column as in [r]. *)
Definition stamped (now : Date) (s : GovsgMessageStatus)
    (m : WhatsAppMessageStatus.t) (r : GovsgMessage) : GovsgMessage :=
  match m with
  | WhatsAppMessageStatus.sent =>
      {| serviceProviderMessageId := serviceProviderMessageId r;
         status := s;
         sentAt := Some now;
         deliveredAt := deliveredAt r; readAt := readAt r; deletedAt := deletedAt r;
         erroredAt := erroredAt r; errorCode := errorCode r;
         errorDescription := errorDescription r |}
  | WhatsAppMessageStatus.delivered =>
      {| serviceProviderMessageId := serviceProviderMessageId r;
         status := s;
         sentAt := sentAt r;
         deliveredAt := Some now;
         readAt := readAt r; deletedAt := deletedAt r;
         erroredAt := erroredAt r; errorCode := errorCode r;
         errorDescription := errorDescription r |}
  | WhatsAppMessageStatus.read =>
      {| serviceProviderMessageId := serviceProviderMessageId r;
         status := s;
         sentAt := sentAt r; deliveredAt := deliveredAt r;
         readAt := Some now;
         deletedAt := deletedAt r;
         erroredAt := erroredAt r; errorCode := errorCode r;
         errorDescription := errorDescription r |}
  | WhatsAppMessageStatus.deleted =>
      {| serviceProviderMessageId := serviceProviderMessageId r;
         status := s;
         sentAt := sentAt r; deliveredAt := deliveredAt r; readAt := readAt r;
         deletedAt := Some now;
         erroredAt := erroredAt r; errorCode := errorCode r;
         errorDescription := errorDescription r |}
  | WhatsAppMessageStatus.failed =>
      {| serviceProviderMessageId := serviceProviderMessageId r;
         status := s;
         sentAt := sentAt r; deliveredAt := deliveredAt r; readAt := readAt r;
         deletedAt := deletedAt r;
         erroredAt := Some now;
         errorCode := errorCode r;
         errorDescription := errorDescription r |}
  | WhatsAppMessageStatus.warning => r
  end.

(** The row [r] after a failure with details: status, [erroredAt],
    [errorCode] and [errorDescription] set; every other column as in
    [r]. *)
Definition errored (now : Date) (s : GovsgMessageStatus)
    (code description : string) (r : GovsgMessage) : GovsgMessage :=
  {| serviceProviderMessageId := serviceProviderMessageId r;
     status := s;
     sentAt := sentAt r; deliveredAt := deliveredAt r; readAt := readAt r;
     deletedAt := deletedAt r;
     erroredAt := Some now;
     errorCode := Some code;
     errorDescription := Some description |}.

(** The [where] option every update carries. *)
Definition whereOpts_of (messageId : JsValue) : JsValue :=
  obj [("where", obj [("serviceProviderMessageId", messageId)])].

(** Between [w] and [w'], one update was issued: on row [i] of table
    [t], which became [r']; nothing was sent and nothing was logged beyond
    [entries]. *)
Definition one_update (t : Table) (i : nat) (r' : GovsgMessage) (f : FieldOpts)
    (messageId : JsValue) (entries : list LogEntry) (w w' : World) : Prop :=
  table_of t w' = <[i := r']> (table_of t w) /\
  table_of (other t) w' = table_of (other t) w /\
  updateCalls w' = updateCalls w ++ [mkUpdateCall t i f (whereOpts_of messageId)] /\
  outbound w' = outbound w /\
  logs w' = logs w ++ entries.

(** An engine that, when it answers, answers as the pattern demands. *)
Definition faithful (engine : Re.RegExp -> string -> Outcome) : Prop :=
  forall r s b, engine r s = Returns b -> b = Re.test r s.

(** An engine that answers for every suppression pattern on [input]. *)
Definition answers (engine : Re.RegExp -> string -> Outcome) (input : string) : Prop :=
  forall r, In r suppressionPatterns -> forall e, engine r input <> Throws e.

(** Every code unit of [s] is a fixed point of [toLowerCase]. *)
Fixpoint lowered (s : string) : Prop :=
  match s with
  | EmptyString => True
  | String c s' => Str.lower_char c = c /\ lowered s'
  end.

Definition separator (c : ascii) : Prop := Str.is_line_terminator c = false.

(** The lower-cased bodies that the six patterns of
    [shouldSendAutoReply] match, written out. *)
Definition automated_notice (l : string) : Prop :=
  (exists c, separator c /\ Str.contains ("auto" +:+ String c "reply") l) \/
  Str.contains "thank" l \/
  Str.contains "received your message" l \/
  Str.contains "http" l \/
  (exists c d, separator c /\ separator d /\
     Str.contains ("out" +:+ String c ("of" +:+ String d "office")) l) \/
  Str.contains "dear custome" l.

(** The suppression rule in the words of the specification: the sixth
    pattern is the text [dear customer], and a separator is any single
    code unit. *)
Definition spec_automated_notice (l : string) : Prop :=
  (exists c, Str.contains ("auto" +:+ String c "reply") l) \/
  Str.contains "thank" l \/
  Str.contains "received your message" l \/
  Str.contains "http" l \/
  (exists c d, Str.contains ("out" +:+ String c ("of" +:+ String d "office")) l) \/
  Str.contains "dear customer" l.

(** ** Sample events and worlds *)

(** Modelled from the spec: [govsgMessageStatusMapper] lives in
    [@core/constants], which is not part of this file; the spec calls it a
    one-to-one mapping onto the local vocabulary and names [DELIVERED] for
    [delivered].  The properties hold for every mapper; this one
    instantiates them. *)
Definition sample_mapper (m : WhatsAppMessageStatus.t) : GovsgMessageStatus :=
  match m with
  | WhatsAppMessageStatus.warning => "WARNING"
  | WhatsAppMessageStatus.failed => "FAILED"
  | WhatsAppMessageStatus.sent => "SENT"
  | WhatsAppMessageStatus.delivered => "DELIVERED"
  | WhatsAppMessageStatus.read => "READ"
  | WhatsAppMessageStatus.deleted => "DELETED"
  end.

Definition sample_now : Date := 1700000000%Z.

Definition sample_row (id : string) : GovsgMessage :=
  mkGovsgMessage id "UNSENT" None None None None None None None.

(** [m1] is an ordinary message, [t1] a transactional one. *)
Definition sample_world : World :=
  mkWorld [sample_row "m0"; sample_row "m1"] [sample_row "t1"] [] [] [].

(** A world that breaks the uniqueness of message ids. *)
Definition sample_world_both : World :=
  mkWorld [sample_row "m1"] [sample_row "m1"] [] [] [].

Definition status_webhook (id status : string) : JsValue :=
  JObject [("statuses", JArray [JObject [("id", JString id); ("status", JString status)]])].

Definition sample_error : JsValue :=
  JObject [("code", JNumber 470);
           ("title", JString "Message failed to send");
           ("details", JString "Outside the allowed window");
           ("href", JString "https://example.test/errors")].

(** A failure whose errors sit inside the status element. *)
Definition failed_webhook_nested : JsValue :=
  JObject [("statuses",
            JArray [JObject [("id", JString "m1"); ("status", JString "failed");
                             ("errors", JArray [sample_error])]])].

(** A failure whose errors sit next to [statuses]. *)
Definition failed_webhook_top : JsValue :=
  JObject [("statuses",
            JArray [JObject [("id", JString "m1"); ("status", JString "failed")]]);
           ("errors", JArray [sample_error])].

Definition sample_question : string := "When will I (really) receive my results?".

Definition message_webhook (text : string) : JsValue :=
  JObject [("messages",
            JArray [JObject [("id", JString "wamid.1"); ("type", JString "text");
                             ("text", JObject [("body", JString text)])]]);
           ("contacts", JArray [JObject [("wa_id", JString "6591234567")]])].

(** A body with all three keys. *)
Definition mixed_webhook : JsValue :=
  JObject [("statuses",
            JArray [JObject [("id", JString "m1"); ("status", JString "delivered")]]);
           ("messages",
            JArray [JObject [("id", JString "wamid.1"); ("type", JString "text");
                             ("text", JObject [("body", JString "Hello")])]]);
           ("contacts", JArray [JObject [("wa_id", JString "6591234567")]])].

(** ** Vocabulary of the further properties *)

(** The row an event about [messageId] is applied to: the row found, when
    exactly one table holds the id. *)
Definition target (w : World) (messageId : JsValue) : option (Table * nat) :=
  match find_row messageId (govsgMessages w),
        find_row messageId (govsgMessagesTransactional w) with
  | Some i, None => Some (Ordinary, i)
  | None, Some j => Some (Transactional, j)
  | _, _ => None
  end.

(** Between [w] and [w'], one update with the fields [f] was issued on row
    [i] of table [t] and applied; no other row and no other table
    changed. *)
Definition issued (t : Table) (i : nat) (f : FieldOpts) (messageId : JsValue)
    (w w' : World) : Prop :=
  table_of t w' = alter (apply_fields f) i (table_of t w) /\
  table_of (other t) w' = table_of (other t) w /\
  updateCalls w' = updateCalls w ++ [mkUpdateCall t i f (whereOpts_of messageId)].

(** What one run of the reconciliation did between [w] and [w'], with
    result [r]: nothing was sent, the log grew, and either no row was
    touched ([fo] is [None]) or the call returned normally after one
    update with the fields [f], on the target of the message id. *)
Definition reconciled (messageId : JsValue) (fo : option FieldOpts)
    (r : Result unit) (w w' : World) : Prop :=
  outbound w' = outbound w /\
  (exists entries, logs w' = logs w ++ entries) /\
  match fo with
  | Some f =>
      exists t i,
        target w messageId = Some (t, i) /\ r = Ok tt /\ issued t i f messageId w w'
  | None => no_update w w'
  end.

(** The test [!body.errors || body.errors.length === 0] on the value of
    [body.errors]. *)
Definition no_error_details (errors : JsValue) : bool :=
  negb (Js.truthy errors) ||
  match Js.get errors "length" with
  | Some (JNumber n) => (n =? 0)%Z
  | _ => false
  end.

(** The keys of a table, in row order. *)
Definition keys (rows : list GovsgMessage) : list string :=
  map serviceProviderMessageId rows.

(** A code unit that sanitisation removes. *)
Definition blacklisted_char (c : ascii) : bool := Str.mem c "/\[]<>()*".

(** Every code unit of [s] satisfies [p]. *)
Fixpoint Str_forallb (p : ascii -> bool) (s : string) : bool :=
  match s with
  | EmptyString => true
  | String c s' => p c && Str_forallb p s'
  end.

(** The log entries of the reconciliation path. *)
Definition error_status_entry : LogEntry :=
  mkLog Info (obj [("message", str "Received webhook with error status")]).

Definition no_details_entry (messageId body : JsValue) : LogEntry :=
  mkLog Err (obj [("message", str "Received webhook with error status but no error details");
                  ("meta", obj [("messageId", messageId); ("body", body)])]).

Definition warning_entry (messageId body : JsValue) : LogEntry :=
  mkLog Warn (obj [("message", str "Received webhook with warning status");
                   ("meta", obj [("messageId", messageId); ("body", body)])]).

(** The first log entry of every call of [parseWebhook]. *)
Definition receipt_entry : LogEntry :=
  mkLog Info (obj [("message", str "Received webhook from WhatsApp");
                   ("action", str "parseWebhook")]).

(** A failure without error details, and a warning. *)
Definition failed_webhook_bare : JsValue := status_webhook "m1" "failed".

Definition warning_webhook : JsValue := status_webhook "m1" "warning".

(** The world after [delivered] for [m1] was reconciled once. *)
Definition delivered_once : World :=
  snd (parseTemplateMessageWebhook sample_now sample_mapper
         (status_webhook "m1" "delivered") sample_world).

(** A status webhook with an empty batch. *)
Definition empty_status_webhook : JsValue := JObject [("statuses", JArray [])].

(** An image message. *)
Definition image_webhook : JsValue :=
  JObject [("messages", JArray [JObject [("id", JString "wamid.2"); ("type", JString "image")]]);
           ("contacts", JArray [JObject [("wa_id", JString "6591234567")]])].

(** A text message whose [text] has no [body]. *)
Definition bodiless_webhook : JsValue :=
  JObject [("messages",
            JArray [JObject [("id", JString "wamid.3"); ("type", JString "text");
                             ("text", JObject [])]]);
           ("contacts", JArray [JObject [("wa_id", JString "6591234567")]])].

(** A failure whose first error has a code and a title only. *)
Definition failed_webhook_terse : JsValue :=
  JObject [("statuses",
            JArray [JObject [("id", JString "m1"); ("status", JString "failed")]]);
           ("errors", JArray [JObject [("code", JNumber 470);
                                       ("title", JString "Message failed to send")]])].

(** * Properties *)

(** ** Strings *)

Lemma Str_app_nil_r (s : string) : s +:+ "" = s.
Proof. induction s as [|c s IH]; simpl; [reflexivity | now rewrite IH]. Qed.

Lemma Str_app_assoc (a b c : string) : (a +:+ b) +:+ c = a +:+ (b +:+ c).
Proof. induction a as [|x a IH]; simpl; [reflexivity | now rewrite IH]. Qed.

Lemma Str_app_eq_nil (a b : string) : a +:+ b = "" -> a = "" /\ b = "".
Proof. destruct a; simpl; [auto | discriminate]. Qed.

Lemma Str_length_app (a b : string) :
  String.length (a +:+ b) = String.length a + String.length b.
Proof. induction a as [|x a IH]; simpl; [reflexivity | now rewrite IH]. Qed.

Lemma Str_toLowerCase_app (a b : string) :
  Str.toLowerCase (a +:+ b) = Str.toLowerCase a +:+ Str.toLowerCase b.
Proof. induction a as [|x a IH]; simpl; [reflexivity | now rewrite IH]. Qed.

Lemma Str_prefixb_app (w post : string) : Str.prefixb w (w +:+ post) = true.
Proof.
  induction w as [|a w IH]; simpl; [reflexivity |].
  now rewrite Ascii.eqb_refl, IH.
Qed.

Lemma Str_infixb_prefixb (w s : string) : Str.prefixb w s = true -> Str.infixb w s = true.
Proof. destruct s; simpl; intros ->; reflexivity. Qed.

Lemma Str_infixb_complete (w s : string) : Str.contains w s -> Str.infixb w s = true.
Proof.
  intros (pre & post & ->). induction pre as [|c pre IH].
  - change ("" +:+ w +:+ post) with (w +:+ post).
    apply Str_infixb_prefixb, Str_prefixb_app.
  - simpl. rewrite IH. apply orb_true_r.
Qed.

Lemma Str_contains_app_l (a b s : string) : Str.contains (a +:+ b) s -> Str.contains a s.
Proof.
  intros (pre & post & ->). exists pre, (b +:+ post). now rewrite Str_app_assoc.
Qed.

(** Refutes a hypothesis [contains w s] for closed [w] and [s]. *)
Ltac no_infix H :=
  apply Str_infixb_complete in H; vm_compute in H; discriminate H.

Ltac each_ascii c :=
  destruct c as [[] [] [] [] [] [] [] []].

Lemma lower_char_idem (c : ascii) : Str.lower_char (Str.lower_char c) = Str.lower_char c.
Proof. each_ascii c; vm_compute; reflexivity. Qed.

Lemma lower_canonicalize (c : ascii) :
  Str.lower_char c = c -> Str.lower_char (Str.canonicalize c) = c.
Proof. each_ascii c; vm_compute; intros H; first [reflexivity | discriminate H]. Qed.

Lemma lowered_toLowerCase (s : string) : lowered (Str.toLowerCase s).
Proof.
  induction s as [|c s IH]; simpl; [exact I | split; [apply lower_char_idem | exact IH]].
Qed.

Lemma lowered_app (a b : string) : lowered (a +:+ b) <-> lowered a /\ lowered b.
Proof.
  induction a as [|x a IH]; simpl; [tauto | rewrite IH; tauto].
Qed.

(** Under the [i] flag, a lower-case pattern character meets a lower-case
    input code unit only when they are equal. *)
Lemma char_match_lowered (a c : ascii) :
  Str.lower_char a = a -> Str.lower_char c = c ->
  Re.char_match true a c = true -> c = a.
Proof.
  intros Ha Hc H. unfold Re.char_match in H.
  apply Ascii.eqb_eq in H.
  rewrite <- (lower_canonicalize a Ha), <- (lower_canonicalize c Hc).
  now rewrite H.
Qed.

Lemma char_match_refl (i : bool) (a : ascii) : Re.char_match i a a = true.
Proof. unfold Re.char_match. destruct i; apply Ascii.eqb_refl. Qed.

(** ** Laws of the monad *)

Lemma bind_ret {A B} (a : A) (k : A -> M B) : bind (ret a) k = k a.
Proof. reflexivity. Qed.

Lemma bind_throw {A B} (e : Exception) (k : A -> M B) : bind (throw e) k = throw e.
Proof. reflexivity. Qed.

Lemma bind_orTypeError_Some {A B} (a : A) (k : A -> M B) :
  bind (orTypeError (Some a)) k = k a.
Proof. reflexivity. Qed.

Lemma bind_orTypeError_None {A B} (k : A -> M B) :
  bind (orTypeError None) k = throw TypeError.
Proof. reflexivity. Qed.

(** ** The matcher decides the words of a pattern *)

Lemma Re_nullable_matches (i : bool) (p : Re.Pattern) :
  Re.nullable p = true <-> Re.matches i p "".
Proof.
  split.
  - induction p; simpl; intros H; try discriminate.
    + constructor.
    + apply andb_true_iff in H as [H1 H2].
      change "" with ("" +:+ ""). constructor; auto.
    + apply orb_true_iff in H as [H|H]; [apply Re.m_alt_l | apply Re.m_alt_r]; auto.
    + constructor.
  - intros H. remember "" as e eqn:E.
    induction H; simpl; try discriminate; try reflexivity.
    + apply Str_app_eq_nil in E as [-> ->]. rewrite IHmatches1, IHmatches2; auto.
    + rewrite IHmatches; auto.
    + rewrite IHmatches; auto. apply orb_true_r.
Qed.

Lemma Re_matches_empty (i : bool) (w : string) : Re.matches i Re.PEmpty w -> w = "".
Proof. inversion 1; reflexivity. Qed.

Lemma Re_matches_fail (i : bool) (w : string) : ~ Re.matches i Re.PFail w.
Proof. inversion 1. Qed.

Lemma Re_deriv_sound (i : bool) (c : ascii) (p : Re.Pattern) :
  forall w, Re.matches i (Re.deriv i c p) w -> Re.matches i p (String c w).
Proof.
  induction p; simpl; intros w H.
  - inversion H.
  - inversion H.
  - destruct (Re.char_match i c0 c) eqn:E.
    + apply Re_matches_empty in H; subst. now constructor.
    + inversion H.
  - destruct (Str.is_line_terminator c) eqn:E.
    + inversion H.
    + apply Re_matches_empty in H; subst. now constructor.
  - destruct (Re.nullable p1) eqn:N.
    + inversion H; subst.
      * match goal with Hs : Re.matches _ (Re.PSeq _ _) _ |- _ => inversion Hs; subst end.
        change (String c (u +:+ v)) with (String c u +:+ v).
        constructor; auto.
      * change (String c w) with ("" +:+ String c w).
        constructor; [now apply Re_nullable_matches | auto].
    + inversion H; subst.
      change (String c (u +:+ v)) with (String c u +:+ v).
      constructor; auto.
  - inversion H; subst; [apply Re.m_alt_l | apply Re.m_alt_r]; auto.
  - inversion H; subst.
    change (String c (u +:+ v)) with (String c u +:+ v).
    apply Re.m_star_cons; auto.
Qed.

Lemma Re_deriv_complete (i : bool) (p : Re.Pattern) (s : string) :
  Re.matches i p s ->
  forall c w, s = String c w -> Re.matches i (Re.deriv i c p) w.
Proof.
  induction 1; intros c' w E; simpl.
  - discriminate.
  - injection E as <- <-. rewrite H. constructor.
  - injection E as <- <-. rewrite H. constructor.
  - destruct u as [|x u]; simpl in E.
    + subst v.
      assert (N : Re.nullable p = true) by now apply (Re_nullable_matches i).
      rewrite N. apply Re.m_alt_r. now apply IHmatches2.
    + injection E as <- <-.
      destruct (Re.nullable p).
      * apply Re.m_alt_l. constructor; auto.
      * constructor; auto.
  - apply Re.m_alt_l; auto.
  - apply Re.m_alt_r; auto.
  - discriminate.
  - simpl in E. injection E as <- <-.
    constructor; auto.
Qed.

Lemma Re_match_prefix_spec (i : bool) (s : string) :
  forall p,
    Re.match_prefix i p s = true <->
    exists w rest, s = w +:+ rest /\ Re.matches i p w.
Proof.
  induction s as [|c s IH]; intros p; simpl.
  - rewrite orb_false_r, (Re_nullable_matches i). split.
    + intros H. exists "", "". auto.
    + intros (w & rest & E & H). symmetry in E.
      apply Str_app_eq_nil in E as [-> _]. exact H.
  - rewrite orb_true_iff, (Re_nullable_matches i), IH. split.
    + intros [H | (w & rest & -> & H)].
      * exists "", (String c s). auto.
      * exists (String c w), rest. split; [reflexivity | now apply Re_deriv_sound].
    + intros (w & rest & E & H). destruct w as [|x w]; simpl in E.
      * left. exact H.
      * injection E as <- ->. right. exists w, rest.
        split; [reflexivity | now apply (Re_deriv_complete i p (String c w))].
Qed.

Lemma Re_search_nil (i : bool) (p : Re.Pattern) :
  Re.search i p "" = Re.nullable p.
Proof. simpl. now rewrite !orb_false_r. Qed.

Lemma Re_search_cons (i : bool) (p : Re.Pattern) (c : ascii) (s : string) :
  Re.search i p (String c s) = Re.match_prefix i p (String c s) || Re.search i p s.
Proof. reflexivity. Qed.

Lemma Re_search_spec (i : bool) (p : Re.Pattern) (s : string) :
  Re.search i p s = true <->
  exists pre w post, s = pre +:+ w +:+ post /\ Re.matches i p w.
Proof.
  induction s as [|c s IH].
  - rewrite Re_search_nil, (Re_nullable_matches i). split.
    + intros H. exists "", "", "". auto.
    + intros (pre & w & post & E & H). symmetry in E.
      apply Str_app_eq_nil in E as [_ E].
      apply Str_app_eq_nil in E as [-> _]. exact H.
  - rewrite Re_search_cons, orb_true_iff, IH, Re_match_prefix_spec. split.
    + intros [(w & rest & E & H) | (pre & w & post & -> & H)].
      * exists "", w, rest. auto.
      * exists (String c pre), w, post. auto.
    + intros (pre & w & post & E & H). destruct pre as [|x pre]; simpl in E.
      * left. exists w, post. auto.
      * injection E as <- ->. right. exists pre, w, post. auto.
Qed.

(** ** The six patterns, written out *)

Lemma Re_seq_char_inv (i : bool) (a : ascii) (q : Re.Pattern) (w : string) :
  Re.matches i (Re.PSeq (Re.PChar a) q) w ->
  exists c w', w = String c w' /\ Re.char_match i a c = true /\ Re.matches i q w'.
Proof.
  inversion 1 as [| | |p' q' u v Hu Hv| | | |]; subst.
  inversion Hu; subst. simpl. eauto.
Qed.

Lemma Re_seq_dot_inv (i : bool) (q : Re.Pattern) (w : string) :
  Re.matches i (Re.PSeq Re.PDot q) w ->
  exists c w', w = String c w' /\ separator c /\ Re.matches i q w'.
Proof.
  inversion 1 as [| | |p' q' u v Hu Hv| | | |]; subst.
  inversion Hu; subst. simpl. unfold separator. eauto.
Qed.

Lemma Re_seq_char_intro (i : bool) (a c : ascii) (q : Re.Pattern) (w : string) :
  Re.char_match i a c = true -> Re.matches i q w ->
  Re.matches i (Re.PSeq (Re.PChar a) q) (String c w).
Proof.
  intros Hc Hq. change (String c w) with (String c "" +:+ w).
  constructor; [now constructor | exact Hq].
Qed.

Lemma Re_seq_dot_intro (i : bool) (c : ascii) (q : Re.Pattern) (w : string) :
  separator c -> Re.matches i q w ->
  Re.matches i (Re.PSeq Re.PDot q) (String c w).
Proof.
  intros Hc Hq. change (String c w) with (String c "" +:+ w).
  constructor; [now constructor | exact Hq].
Qed.

Lemma Re_star_tail_intro (i : bool) (p : Re.Pattern) :
  Re.matches i (Re.PSeq (Re.PStar p) Re.PEmpty) "".
Proof. change "" with ("" +:+ ""). constructor; constructor. Qed.

(** Reads the word off a hypothesis [H : matches true P w], for a
    lower-case [w] witnessed by [L : lowered w]. *)
Ltac peel H L :=
  repeat first
    [ let c := fresh "c" in
      let w := fresh "w" in
      let Hc := fresh "Hc" in
      let Lc := fresh "Lc" in
      apply Re_seq_char_inv in H as (c & w & -> & Hc & H);
      simpl in L; destruct L as [Lc L];
      apply (fun E => char_match_lowered _ c E Lc) in Hc;
      [subst c | vm_compute; reflexivity]
    | let c := fresh "sep" in
      let w := fresh "w" in
      let Hc := fresh "Hsep" in
      apply Re_seq_dot_inv in H as (c & w & -> & Hc & H);
      simpl in L; destruct L as [_ L] ].

(** Builds [matches i P w] for a [w] written out. *)
Ltac build :=
  repeat first
    [ apply Re_seq_char_intro; [vm_compute; reflexivity |]
    | apply Re_seq_dot_intro; [assumption |] ];
  first [ apply Re.m_empty | apply Re_star_tail_intro ].

Ltac normal_pattern H :=
  match type of H with
  | Re.matches _ ?p _ =>
      let p' := eval vm_compute in p in change p with p' in H
  end.

Ltac normal_pattern_goal :=
  match goal with
  | |- Re.matches _ ?p _ =>
      let p' := eval vm_compute in p in change p with p'
  end.

Lemma lowered_middle (pre w post : string) :
  lowered (pre +:+ w +:+ post) -> lowered w.
Proof. intros H. apply lowered_app in H as [_ H]. now apply lowered_app in H as [H _]. Qed.

Lemma test_thank (l : string) :
  lowered l ->
  Re.test (Re.mkRegExp "thank" true) l = true <-> Str.contains "thank" l.
Proof.
  intros L. unfold Re.test. rewrite Re_search_spec. simpl Re.source. simpl Re.ignoreCase.
  split.
  - intros (pre & w & post & -> & H). apply lowered_middle in L.
    normal_pattern H. peel H L. apply Re_matches_empty in H as ->.
    exists pre, post. reflexivity.
  - intros (pre & post & ->). exists pre, "thank", post. split; [reflexivity |].
    normal_pattern_goal. build.
Qed.

Lemma test_received (l : string) :
  lowered l ->
  Re.test (Re.mkRegExp "received your message" true) l = true <->
  Str.contains "received your message" l.
Proof.
  intros L. unfold Re.test. rewrite Re_search_spec. simpl Re.source. simpl Re.ignoreCase.
  split.
  - intros (pre & w & post & -> & H). apply lowered_middle in L.
    normal_pattern H. peel H L. apply Re_matches_empty in H as ->.
    exists pre, post. reflexivity.
  - intros (pre & post & ->). exists pre, "received your message", post.
    split; [reflexivity |]. normal_pattern_goal. build.
Qed.

Lemma test_http (l : string) :
  lowered l ->
  Re.test (Re.mkRegExp "http" true) l = true <-> Str.contains "http" l.
Proof.
  intros L. unfold Re.test. rewrite Re_search_spec. simpl Re.source. simpl Re.ignoreCase.
  split.
  - intros (pre & w & post & -> & H). apply lowered_middle in L.
    normal_pattern H. peel H L. apply Re_matches_empty in H as ->.
    exists pre, post. reflexivity.
  - intros (pre & post & ->). exists pre, "http", post.
    split; [reflexivity |]. normal_pattern_goal. build.
Qed.

Lemma test_auto_reply (l : string) :
  lowered l ->
  Re.test (Re.mkRegExp "auto.reply" true) l = true <->
  exists c, separator c /\ Str.contains ("auto" +:+ String c "reply") l.
Proof.
  intros L. unfold Re.test. rewrite Re_search_spec. simpl Re.source. simpl Re.ignoreCase.
  split.
  - intros (pre & w & post & -> & H). apply lowered_middle in L.
    normal_pattern H. peel H L. apply Re_matches_empty in H as ->.
    eexists. refine (conj _ (ex_intro _ pre (ex_intro _ post eq_refl))). assumption.
  - intros (c & Hc & pre & post & ->).
    exists pre, ("auto" +:+ String c "reply"), post.
    split; [reflexivity |]. normal_pattern_goal. simpl. build.
Qed.

Lemma test_out_of_office (l : string) :
  lowered l ->
  Re.test (Re.mkRegExp "out.of.office" true) l = true <->
  exists c d, separator c /\ separator d /\
    Str.contains ("out" +:+ String c ("of" +:+ String d "office")) l.
Proof.
  intros L. unfold Re.test. rewrite Re_search_spec. simpl Re.source. simpl Re.ignoreCase.
  split.
  - intros (pre & w & post & -> & H). apply lowered_middle in L.
    normal_pattern H. peel H L. apply Re_matches_empty in H as ->.
    do 2 eexists.
    refine (conj _ (conj _ (ex_intro _ pre (ex_intro _ post eq_refl)))); assumption.
  - intros (c & d & Hc & Hd & pre & post & ->).
    exists pre, ("out" +:+ String c ("of" +:+ String d "office")), post.
    split; [reflexivity |]. normal_pattern_goal. simpl. build.
Qed.

(** The star of the sixth pattern binds to its last letter only: the
    pattern asks for [dear custome] and then any number of [r]. *)
Lemma test_dear_customer (l : string) :
  lowered l ->
  Re.test (Re.mkRegExp "dear customer*" true) l = true <->
  Str.contains "dear custome" l.
Proof.
  intros L. unfold Re.test. rewrite Re_search_spec. simpl Re.source. simpl Re.ignoreCase.
  split.
  - intros (pre & w & post & -> & H). apply lowered_middle in L.
    normal_pattern H. peel H L.
    match type of H with
    | Re.matches _ _ ?rs => exists pre, (rs +:+ post)
    end.
    reflexivity.
  - intros (pre & post & ->). exists pre, "dear custome", post.
    split; [reflexivity |]. normal_pattern_goal. build.
Qed.

(** ** The suppression predicate *)

Lemma automated_notice_test (l : string) :
  lowered l ->
  automated_notice l <-> exists r, In r suppressionPatterns /\ Re.test r l = true.
Proof.
  intros L. unfold automated_notice.
  rewrite <- (test_auto_reply l L), <- (test_thank l L), <- (test_received l L),
    <- (test_http l L), <- (test_out_of_office l L), <- (test_dear_customer l L).
  unfold suppressionPatterns. split.
  - intros H. repeat destruct H as [H|H]; eexists; (split; [|exact H]); simpl; tauto.
  - intros (r & Hr & H). simpl in Hr.
    repeat destruct Hr as [<-|Hr]; try tauto.
Qed.

Lemma only_logged_refl (w : World) : only_logged w w.
Proof.
  unfold only_logged, no_update. repeat split. exists []. now rewrite app_nil_r.
Qed.

Lemma only_logged_log (l : LogLevel) (e : JsValue) (w : World) :
  only_logged w (snd (log l e w)).
Proof.
  unfold only_logged, no_update. simpl. repeat split. now exists [mkLog l e].
Qed.

Lemma only_logged_trans (w1 w2 w3 : World) :
  only_logged w1 w2 -> only_logged w2 w3 -> only_logged w1 w3.
Proof.
  unfold only_logged, no_update.
  intros ((A1 & A2 & A3) & A4 & (e1 & A5)) ((B1 & B2 & B3) & B4 & (e2 & B5)).
  repeat split; try congruence.
  exists (e1 ++ e2). rewrite B5, A5. now rewrite app_assoc.
Qed.

Section Predicate.

Variable engine : Re.RegExp -> string -> Outcome.

Lemma matchAnyRegex_try_true input ps :
  matchAnyRegex_try engine input ps = Returns true ->
  exists r, In r ps /\ engine r input = Returns true.
Proof.
  induction ps as [|p ps IH]; simpl; [discriminate |].
  destruct (engine p input) as [[|]|e] eqn:E; intros H.
  - exists p. auto.
  - destruct (IH H) as (r & Hr & Er). exists r. auto.
  - discriminate.
Qed.

Lemma matchAnyRegex_try_false input ps :
  matchAnyRegex_try engine input ps = Returns false ->
  forall r, In r ps -> engine r input = Returns false.
Proof.
  induction ps as [|p ps IH]; simpl; [contradiction |].
  destruct (engine p input) as [[|]|e] eqn:E; intros H r [<-|Hr];
    try discriminate; auto.
Qed.

Lemma matchAnyRegex_try_throws input ps e :
  matchAnyRegex_try engine input ps = Throws e ->
  exists r, In r ps /\ engine r input = Throws e.
Proof.
  induction ps as [|p ps IH]; simpl; [discriminate |].
  destruct (engine p input) as [[|]|e'] eqn:E; intros H.
  - discriminate.
  - destruct (IH H) as (r & Hr & Er). exists r. auto.
  - injection H as ->. exists p. auto.
Qed.

(** [shouldSendAutoReply] answers, writes nothing but log entries, and
    says yes exactly for a body of 1 to 256 code units whose lower-cased
    form is no automated notice and on which no pattern evaluation
    throws. *)
Lemma shouldSendAutoReply_spec (body : string) (w : World) :
  faithful engine ->
  exists b w',
    shouldSendAutoReply engine body w = (Ok b, w') /\
    only_logged w w' /\
    (b = true <->
     (1 <= String.length body <= 256 /\
      ~ automated_notice (Str.toLowerCase body) /\
      answers engine (Str.toLowerCase body))).
Proof.
  intros F. unfold shouldSendAutoReply.
  pose proof (lowered_toLowerCase body) as L.
  destruct ((256 <? String.length body) || (String.length body =? 0)) eqn:Len.
  - exists false, w. split; [reflexivity |]. split; [apply only_logged_refl |].
    split; [discriminate |]. intros ([H1 H2] & _). exfalso.
    apply orb_true_iff in Len as [H|H].
    + apply Nat.ltb_lt in H. lia.
    + apply Nat.eqb_eq in H. lia.
  - apply orb_false_iff in Len as [H1 H2].
    apply Nat.ltb_ge in H1. apply Nat.eqb_neq in H2.
    unfold bind, matchAnyRegex.
    destruct (matchAnyRegex_try engine (Str.toLowerCase body) suppressionPatterns)
      as [[|]|e] eqn:T.
    + exists false, w. split; [reflexivity |]. split; [apply only_logged_refl |].
      split; [discriminate |]. intros (_ & N & _). exfalso. apply N.
      apply automated_notice_test; [exact L |].
      apply matchAnyRegex_try_true in T as (r & Hr & Er).
      exists r. split; [exact Hr |]. symmetry. exact (F _ _ _ Er).
    + exists true, w. split; [reflexivity |]. split; [apply only_logged_refl |].
      split; [|reflexivity]. intros _. split; [lia |]. split.
      * intros N. apply automated_notice_test in N as (r & Hr & Er); [|exact L].
        pose proof (matchAnyRegex_try_false _ _ T r Hr) as E.
        apply F in E. congruence.
      * intros r Hr e E. rewrite (matchAnyRegex_try_false _ _ T r Hr) in E. discriminate.
    + eexists false, _. split; [reflexivity |]. split; [apply only_logged_log |].
      split; [discriminate |]. intros (_ & _ & A). exfalso.
      apply matchAnyRegex_try_throws in T as (r & Hr & Er).
      exact (A r Hr e Er).
Qed.

End Predicate.

Lemma RegExp_prototype_test_answers (input : string) :
  answers RegExp_prototype_test input.
Proof. intros r _ e H. discriminate H. Qed.

(** On the engine of the run time nothing throws: the predicate leaves
    the world alone and depends on the body only. *)
Lemma shouldSendAutoReply_run_time (body : string) (w : World) :
  exists b,
    shouldSendAutoReply RegExp_prototype_test body w = (Ok b, w) /\
    (b = true <->
     (1 <= String.length body <= 256 /\ ~ automated_notice (Str.toLowerCase body))).
Proof.
  destruct (shouldSendAutoReply_spec RegExp_prototype_test body w)
    as (b & w' & E & _ & Hb).
  { intros r s b H. injection H as <-. reflexivity. }
  assert (W : w' = w).
  { unfold shouldSendAutoReply, bind, matchAnyRegex in E.
    destruct ((256 <? String.length body) || (String.length body =? 0));
      [now injection E |].
    destruct (matchAnyRegex_try RegExp_prototype_test (Str.toLowerCase body)
                suppressionPatterns) as [[|]|e] eqn:T; try (now injection E).
    apply matchAnyRegex_try_throws in T as (r & _ & Er). discriminate Er. }
  subst w'. exists b. split; [exact E |].
  rewrite Hb. split.
  - intros (L & N & _). auto.
  - intros (L & N). split; [exact L |]. split; [exact N |].
    apply RegExp_prototype_test_answers.
Qed.

(** The examples of the specification. *)
Example thank_you_suppressed :
  shouldSendAutoReply RegExp_prototype_test "Thank you for your message" emptyWorld
  = (Ok false, emptyWorld).
Proof. vm_compute. reflexivity. Qed.

Example out_of_office_suppressed :
  shouldSendAutoReply RegExp_prototype_test "Out-of-office until Monday" emptyWorld
  = (Ok false, emptyWorld).
Proof. vm_compute. reflexivity. Qed.

Example link_suppressed :
  shouldSendAutoReply RegExp_prototype_test "see http://example.com" emptyWorld
  = (Ok false, emptyWorld).
Proof. vm_compute. reflexivity. Qed.

Example question_answered :
  shouldSendAutoReply RegExp_prototype_test "When will I receive my results?" emptyWorld
  = (Ok true, emptyWorld).
Proof. vm_compute. reflexivity. Qed.

(** The dot of a pattern does not match a line feed: [auto] and [reply]
    on two lines are no automated notice. *)
Example auto_reply_on_two_lines_answered :
  shouldSendAutoReply RegExp_prototype_test
    ("auto" +:+ String (ascii_of_nat 10) "reply") emptyWorld
  = (Ok true, emptyWorld).
Proof. vm_compute. reflexivity. Qed.

(** ** Reading the events off a body *)

Lemma Js_get_defined (v x : JsValue) (k k' : string) :
  Js.get v k = Some x -> exists y, Js.get v k' = Some y.
Proof. destruct v; simpl; intros H; try discriminate; eauto. Qed.

Lemma senderId_inv (body x : JsValue) :
  senderId body = Some x ->
  exists contacts contact,
    Js.get body "contacts" = Some contacts /\
    Js.first contacts = Some contact /\
    Js.get contact "wa_id" = Some x.
Proof.
  unfold senderId. intros H.
  destruct (Js.get body "contacts") as [contacts|] eqn:E1; [|discriminate].
  simpl in H.
  destruct (Js.first contacts) as [contact|] eqn:E2; [|discriminate].
  simpl in H. eauto.
Qed.

Lemma inboundMessage_inv (body m : JsValue) :
  inboundMessage body = Some m ->
  exists messages,
    Js.get body "messages" = Some messages /\ Js.first messages = Some m.
Proof.
  unfold inboundMessage. intros H.
  destruct (Js.get body "messages") as [messages|] eqn:E1; [|discriminate].
  simpl in H. eauto.
Qed.

Lemma inboundText_inv (body : JsValue) (raw : string) :
  inboundText body = Some raw ->
  exists message text,
    inboundMessage body = Some message /\
    Js.get message "type" = Some (JString WhatsappWebhookMessageType_text) /\
    Js.get message "text" = Some text /\
    Js.get text "body" = Some (JString raw).
Proof.
  unfold inboundText. intros H.
  destruct (inboundMessage body) as [message|] eqn:E1; [|discriminate].
  simpl in H.
  destruct (Js.get message "type") as [[| | | |t| |]|] eqn:E2; try discriminate.
  destruct (String.eqb t WhatsappWebhookMessageType_text) eqn:E3; [|discriminate].
  apply String.eqb_eq in E3. subst t.
  destruct (Js.get message "text") as [text|] eqn:E4; [|discriminate].
  simpl in H.
  destruct (Js.get text "body") as [[| | | |b| |]|] eqn:E5; try discriminate.
  injection H as ->. exists message, text. auto.
Qed.

Lemma statusEvent_inv (body e : JsValue) :
  statusEvent body = Some e ->
  exists statuses,
    Js.get body "statuses" = Some statuses /\ Js.first statuses = Some e.
Proof.
  unfold statusEvent. intros H.
  destruct (Js.get body "statuses") as [statuses|] eqn:E1; [|discriminate].
  simpl in H. eauto.
Qed.

Lemma eventMessageId_inv (body x : JsValue) :
  eventMessageId body = Some x ->
  exists e, statusEvent body = Some e /\ Js.get e "id" = Some x.
Proof.
  unfold eventMessageId. intros H.
  destruct (statusEvent body) as [e|] eqn:E1; [|discriminate].
  simpl in H. eauto.
Qed.

Lemma validator_blacklist_sanitise (raw : string) :
  validator_blacklist (JString raw) blacklisted = Some (sanitise raw).
Proof. reflexivity. Qed.

(** ** The decision path on a text message *)

Lemma parseUserMessageWebhook_text
    (config_env : string) (engine : Re.RegExp -> string -> Outcome)
    (body : JsValue) (clientId : WhatsAppApiClient)
    (whatsappId messageId : JsValue) (raw : string) :
  senderId body = Some whatsappId ->
  inboundMessageId body = Some messageId ->
  inboundText body = Some raw ->
  parseUserMessageWebhook config_env engine body clientId =
  (let* autoReplyNeeded := shouldSendAutoReply engine (sanitise raw) in
   if negb autoReplyNeeded then ret tt
   else
     log Info (obj [("message", str "Sending auto reply");
                    ("meta", obj [("whatsappId", whatsappId);
                                  ("messageId", messageId);
                                  ("messageBody", str (sanitise raw))])]) ;;
     sendAutoReply config_env whatsappId clientId).
Proof.
  intros Hs Hi Ht.
  apply senderId_inv in Hs as (contacts & contact & E1 & E2 & E3).
  apply inboundText_inv in Ht as (message & text & Em & E4 & E5 & E6).
  unfold inboundMessageId in Hi. rewrite Em in Hi. simpl in Hi.
  apply inboundMessage_inv in Em as (messages & E7 & E8).
  unfold parseUserMessageWebhook.
  rewrite E1, bind_orTypeError_Some, E2, bind_orTypeError_Some,
    E3, bind_orTypeError_Some, E7, bind_orTypeError_Some, E8, bind_orTypeError_Some,
    Hi, bind_orTypeError_Some, E4, bind_orTypeError_Some.
  unfold WhatsappWebhookMessageType_text at 1. rewrite String.eqb_refl.
  cbn [negb].
  rewrite E5, bind_orTypeError_Some, E6, bind_orTypeError_Some,
    validator_blacklist_sanitise, bind_orTypeError_Some.
  reflexivity.
Qed.

(** * The auto-reply decision *)

(** C4, as amended.  For an engine that answers as the patterns demand
    whenever it answers, [shouldSendAutoReply] returns, and it returns
    [true] exactly when the body has 1 to 256 code units, its lower-cased
    form contains none of: [auto] and [reply] around one code unit that is
    not a line terminator; [thank]; [received your message]; [http];
    [out], [of] and [office] around two such code units; [dear custome];
    and no pattern evaluation throws.  In every other case, a throwing
    evaluation included, it returns [false]. *)
Theorem C4_shouldSendAutoReply_decides
    (engine : Re.RegExp -> string -> Outcome) (body : string) (w : World) :
  faithful engine ->
  exists b w',
    shouldSendAutoReply engine body w = (Ok b, w') /\
    (b = true <->
     (1 <= String.length body <= 256 /\
      ~ automated_notice (Str.toLowerCase body) /\
      answers engine (Str.toLowerCase body))) /\
    (b = false <->
     (String.length body = 0 \/ 256 < String.length body \/
      automated_notice (Str.toLowerCase body) \/
      ~ answers engine (Str.toLowerCase body))).
Proof.
  intros F.
  destruct (shouldSendAutoReply_spec engine body w F) as (b & w' & E & _ & Hb).
  exists b, w'. split; [exact E |]. split; [exact Hb |].
  split.
  - intros ->.
    destruct (Nat.eq_dec (String.length body) 0) as [Z|NZ]; [now left |].
    destruct (Nat.lt_ge_cases 256 (String.length body)) as [G|G]; [right; now left |].
    right. right.
    unfold shouldSendAutoReply in E.
    destruct ((256 <? String.length body) || (String.length body =? 0)) eqn:Len.
    + exfalso. apply orb_true_iff in Len as [H|H].
      * apply Nat.ltb_lt in H. lia.
      * apply Nat.eqb_eq in H. lia.
    + unfold bind, matchAnyRegex in E.
      destruct (matchAnyRegex_try engine (Str.toLowerCase body) suppressionPatterns)
        as [[|]|e] eqn:T.
      * left. apply automated_notice_test; [apply lowered_toLowerCase |].
        apply matchAnyRegex_try_true in T as (r & Hr & Er).
        exists r. split; [exact Hr |]. symmetry. exact (F _ _ _ Er).
      * discriminate E.
      * right. intros A. apply matchAnyRegex_try_throws in T as (r & Hr & Er).
        exact (A r Hr e Er).
  - intros H. destruct b; [|reflexivity]. exfalso.
    destruct Hb as [Hb _]. destruct (Hb eq_refl) as ([L1 L2] & N & A).
    destruct H as [H|[H|[H|H]]]; [lia | lia | exact (N H) | exact (H A)].
Qed.

(** An instance of C4: the question of the specification, on the engine
    of the run time. *)
Lemma C4_shouldSendAutoReply_decides_witness :
  faithful RegExp_prototype_test /\
  exists b w',
    shouldSendAutoReply RegExp_prototype_test "When will I receive my results?" emptyWorld
      = (Ok b, w') /\
    (b = true <->
     (1 <= String.length "When will I receive my results?" <= 256 /\
      ~ automated_notice (Str.toLowerCase "When will I receive my results?") /\
      answers RegExp_prototype_test (Str.toLowerCase "When will I receive my results?"))) /\
    (b = false <->
     (String.length "When will I receive my results?" = 0 \/
      256 < String.length "When will I receive my results?" \/
      automated_notice (Str.toLowerCase "When will I receive my results?") \/
      ~ answers RegExp_prototype_test (Str.toLowerCase "When will I receive my results?"))).
Proof.
  assert (F : faithful RegExp_prototype_test).
  { intros r s b H. injection H as <-. reflexivity. }
  split; [exact F |].
  exact (C4_shouldSendAutoReply_decides RegExp_prototype_test
           "When will I receive my results?" emptyWorld F).
Defined.

(** C4, as stated, fails at the body [dear custome]: it has 12 code units,
    its lower-cased form matches none of the patterns as the specification
    words them, no evaluation throws, and yet the predicate returns
    [false]. *)
Lemma C4_counterexample_dear_custome :
  1 <= String.length "dear custome" <= 256 /\
  ~ spec_automated_notice (Str.toLowerCase "dear custome") /\
  answers RegExp_prototype_test (Str.toLowerCase "dear custome") /\
  shouldSendAutoReply RegExp_prototype_test "dear custome" emptyWorld
    = (Ok false, emptyWorld).
Proof.
  split; [simpl; lia |]. split; [|split].
  - change (Str.toLowerCase "dear custome") with "dear custome".
    intros [(c & H)|[H|[H|[H|[(c & d & H)|H]]]]].
    + apply (Str_contains_app_l "auto") in H. no_infix H.
    + no_infix H.
    + no_infix H.
    + no_infix H.
    + apply (Str_contains_app_l "out") in H. no_infix H.
    + no_infix H.
  - apply RegExp_prototype_test_answers.
  - vm_compute. reflexivity.
Qed.

(** C10.  A body of 1 to 256 code units whose lower-cased form contains
    [dear custome] is suppressed, whatever follows: the predicate returns
    [false].  These bodies include every body that contains
    [dear customer], and more: [dear custome] itself has no
    [dear customer] in it. *)
Theorem C10_dear_custome_suppressed
    (engine : Re.RegExp -> string -> Outcome) (body : string) (w : World) :
  faithful engine ->
  1 <= String.length body <= 256 ->
  Str.contains "dear custome" (Str.toLowerCase body) ->
  (exists w', shouldSendAutoReply engine body w = (Ok false, w')) /\
  (forall l, Str.contains "dear customer" l -> Str.contains "dear custome" l) /\
  ~ Str.contains "dear customer" "dear custome".
Proof.
  intros F Len C. split; [|split].
  - destruct (shouldSendAutoReply_spec engine body w F) as (b & w' & E & _ & Hb).
    exists w'. destruct b; [|exact E]. exfalso.
    destruct Hb as [Hb _]. destruct (Hb eq_refl) as (_ & N & _).
    apply N. unfold automated_notice. tauto.
  - intros l H. exact (Str_contains_app_l "dear custome" "r" l H).
  - intros H. no_infix H.
Qed.

(** An instance of C10: the body [Dear Custome]. *)
Lemma C10_dear_custome_suppressed_witness :
  faithful RegExp_prototype_test /\
  1 <= String.length "Dear Custome" <= 256 /\
  Str.contains "dear custome" (Str.toLowerCase "Dear Custome") /\
  (exists w', shouldSendAutoReply RegExp_prototype_test "Dear Custome" emptyWorld
                = (Ok false, w')) /\
  (forall l, Str.contains "dear customer" l -> Str.contains "dear custome" l) /\
  ~ Str.contains "dear customer" "dear custome".
Proof.
  assert (F : faithful RegExp_prototype_test).
  { intros r s b H. injection H as <-. reflexivity. }
  assert (L : 1 <= String.length "Dear Custome" <= 256) by (simpl; lia).
  assert (C : Str.contains "dear custome" (Str.toLowerCase "Dear Custome")).
  { exists "", "". reflexivity. }
  split; [exact F |]. split; [exact L |]. split; [exact C |].
  exact (C10_dear_custome_suppressed RegExp_prototype_test "Dear Custome" emptyWorld F L C).
Defined.

(** ** Sanitisation *)

Lemma Str_mem_filter (keep : ascii -> bool) (c : ascii) (s : string) :
  Str.mem c (Str.filter keep s) = Str.mem c s && keep c.
Proof.
  induction s as [|d s IH]; simpl; [reflexivity |].
  destruct (keep d) eqn:K; simpl; rewrite IH.
  - destruct (Ascii.eqb c d) eqn:E; simpl; [|reflexivity].
    apply Ascii.eqb_eq in E. subst d. now rewrite K.
  - destruct (Ascii.eqb c d) eqn:E; simpl; [|reflexivity].
    apply Ascii.eqb_eq in E. subst d. rewrite K. now rewrite andb_false_r.
Qed.

(** C8.  The body handed to [validator.blacklist] comes back without the
    nine characters [/ \ [ ] < > ( ) *] and with every other character, in
    order; the decision and the log entry of the reply are computed from
    this sanitised body: two text messages of one sender whose bodies
    sanitise to the same text are treated alike.  No outbound message
    carries the body. *)
Theorem C8_sanitised_body_is_used
    (config_env : string) (engine : Re.RegExp -> string -> Outcome)
    (body : JsValue) (clientId : WhatsAppApiClient)
    (whatsappId messageId : JsValue) (raw : string) :
  senderId body = Some whatsappId ->
  inboundMessageId body = Some messageId ->
  inboundText body = Some raw ->
  validator_blacklist (JString raw) blacklisted =
    Some (Str.filter (fun c => negb (Str.mem c "/\[]<>()*")) raw) /\
  (forall c, Str.mem c (sanitise raw) = Str.mem c raw && negb (Str.mem c "/\[]<>()*")) /\
  parseUserMessageWebhook config_env engine body clientId =
    (let* autoReplyNeeded := shouldSendAutoReply engine (sanitise raw) in
     if negb autoReplyNeeded then ret tt
     else
       log Info (obj [("message", str "Sending auto reply");
                      ("meta", obj [("whatsappId", whatsappId);
                                    ("messageId", messageId);
                                    ("messageBody", str (sanitise raw))])]) ;;
       sendAutoReply config_env whatsappId clientId) /\
  (forall body' raw',
     senderId body' = Some whatsappId ->
     inboundMessageId body' = Some messageId ->
     inboundText body' = Some raw' ->
     sanitise raw' = sanitise raw ->
     parseUserMessageWebhook config_env engine body' clientId =
     parseUserMessageWebhook config_env engine body clientId).
Proof.
  intros Hs Hi Ht. split; [reflexivity |]. split; [|split].
  - intros c. unfold sanitise. apply Str_mem_filter.
  - exact (parseUserMessageWebhook_text _ _ _ _ _ _ _ Hs Hi Ht).
  - intros body' raw' Hs' Hi' Ht' E.
    rewrite (parseUserMessageWebhook_text _ _ _ _ _ _ _ Hs Hi Ht),
      (parseUserMessageWebhook_text _ _ _ _ _ _ _ Hs' Hi' Ht'), E.
    reflexivity.
Qed.

(** An instance of C8: a question with brackets in it. *)
Lemma C8_sanitised_body_is_used_witness :
  senderId (message_webhook sample_question) = Some (JString "6591234567") /\
  inboundMessageId (message_webhook sample_question) = Some (JString "wamid.1") /\
  inboundText (message_webhook sample_question) = Some sample_question /\
  validator_blacklist (JString sample_question) blacklisted =
    Some (Str.filter (fun c => negb (Str.mem c "/\[]<>()*")) sample_question) /\
  (forall c, Str.mem c (sanitise sample_question) =
             Str.mem c sample_question && negb (Str.mem c "/\[]<>()*")) /\
  parseUserMessageWebhook "production" RegExp_prototype_test
      (message_webhook sample_question) "clientA" =
    (let* autoReplyNeeded :=
       shouldSendAutoReply RegExp_prototype_test (sanitise sample_question) in
     if negb autoReplyNeeded then ret tt
     else
       log Info (obj [("message", str "Sending auto reply");
                      ("meta", obj [("whatsappId", JString "6591234567");
                                    ("messageId", JString "wamid.1");
                                    ("messageBody", str (sanitise sample_question))])]) ;;
       sendAutoReply "production" (JString "6591234567") "clientA") /\
  (forall body' raw',
     senderId body' = Some (JString "6591234567") ->
     inboundMessageId body' = Some (JString "wamid.1") ->
     inboundText body' = Some raw' ->
     sanitise raw' = sanitise sample_question ->
     parseUserMessageWebhook "production" RegExp_prototype_test body' "clientA" =
     parseUserMessageWebhook "production" RegExp_prototype_test
       (message_webhook sample_question) "clientA").
Proof.
  split; [reflexivity |]. split; [reflexivity |]. split; [reflexivity |].
  exact (C8_sanitised_body_is_used "production" RegExp_prototype_test
           (message_webhook sample_question) "clientA"
           (JString "6591234567") (JString "wamid.1") sample_question
           eq_refl eq_refl eq_refl).
Defined.

(** The one call [sendAutoReply] makes. *)
Lemma sendAutoReply_run (config_env : string) (whatsappId : JsValue)
    (clientId : WhatsAppApiClient) (w : World) :
  exists w',
    sendAutoReply config_env whatsappId clientId w = (Ok tt, w') /\
    no_update w w' /\
    logs w' = logs w /\
    outbound w' = outbound w ++
      [ if String.eqb config_env "development" then
          SendTemplateMessage
            {| t_recipient := whatsappId; t_apiClient := clientId;
               templateName := "2019covid19_ack"; params := [];
               language := english |} true
        else
          SendTextMessage
            {| x_recipient := whatsappId; x_apiClient := clientId;
               x_body := autoReplyText |} ].
Proof.
  unfold sendAutoReply, no_update.
  destruct (String.eqb config_env "development"); eexists; repeat split.
Qed.

(** C7.  A text message whose sanitised body has 1 to 256 code units and
    matches no suppression pattern causes exactly one outbound call, to
    the sender of the event: [sendTemplateMessage] with the template
    [2019covid19_ack], no parameters and the language [english] when the
    environment is [development], [sendTextMessage] with the fixed text
    otherwise.  No row is touched. *)
Theorem C7_qualifying_message_one_reply
    (config_env : string) (engine : Re.RegExp -> string -> Outcome)
    (body : JsValue) (clientId : WhatsAppApiClient)
    (whatsappId : JsValue) (raw : string) (w : World) :
  faithful engine ->
  answers engine (Str.toLowerCase (sanitise raw)) ->
  senderId body = Some whatsappId ->
  inboundText body = Some raw ->
  1 <= String.length (sanitise raw) <= 256 ->
  ~ automated_notice (Str.toLowerCase (sanitise raw)) ->
  exists w',
    parseUserMessageWebhook config_env engine body clientId w = (Ok tt, w') /\
    no_update w w' /\
    outbound w' = outbound w ++
      [ if String.eqb config_env "development" then
          SendTemplateMessage
            {| t_recipient := whatsappId; t_apiClient := clientId;
               templateName := "2019covid19_ack"; params := [];
               language := english |} true
        else
          SendTextMessage
            {| x_recipient := whatsappId; x_apiClient := clientId;
               x_body := autoReplyText |} ] /\
    recipient_of
      (if String.eqb config_env "development" then
         SendTemplateMessage
           {| t_recipient := whatsappId; t_apiClient := clientId;
              templateName := "2019covid19_ack"; params := [];
              language := english |} true
       else
         SendTextMessage
           {| x_recipient := whatsappId; x_apiClient := clientId;
              x_body := autoReplyText |}) = whatsappId.
Proof.
  intros F A Hs Ht Len N.
  assert (Hi : exists messageId, inboundMessageId body = Some messageId).
  { destruct (inboundText_inv _ _ Ht) as (message & text & Em & E4 & _).
    unfold inboundMessageId. rewrite Em. simpl.
    exact (Js_get_defined _ _ _ "id" E4). }
  destruct Hi as (messageId & Hi).
  rewrite (parseUserMessageWebhook_text config_env engine body clientId
             whatsappId messageId raw Hs Hi Ht).
  destruct (shouldSendAutoReply_spec engine (sanitise raw) w F)
    as (b & w1 & E & (U1 & O1 & _) & Hb).
  assert (b = true) as -> by (apply Hb; auto).
  unfold bind at 1. rewrite E. cbn [negb].
  unfold bind.
  match goal with
  | |- context [log ?l ?e w1] =>
      destruct (sendAutoReply_run config_env whatsappId clientId (snd (log l e w1)))
        as (w2 & E2 & U2 & _ & O2)
  end.
  exists w2. split; [|split; [|split]].
  - cbn [log snd] in E2 |- *. exact E2.
  - unfold no_update in *. cbn [log snd govsgMessages govsgMessagesTransactional updateCalls]
      in U2. intuition congruence.
  - rewrite O2. cbn [log snd outbound]. now rewrite O1.
  - destruct (String.eqb config_env "development"); reflexivity.
Qed.

(** An instance of C7: the question, in production. *)
Lemma C7_qualifying_message_one_reply_witness :
  faithful RegExp_prototype_test /\
  answers RegExp_prototype_test (Str.toLowerCase (sanitise sample_question)) /\
  senderId (message_webhook sample_question) = Some (JString "6591234567") /\
  inboundText (message_webhook sample_question) = Some sample_question /\
  1 <= String.length (sanitise sample_question) <= 256 /\
  ~ automated_notice (Str.toLowerCase (sanitise sample_question)) /\
  exists w',
    parseUserMessageWebhook "production" RegExp_prototype_test
      (message_webhook sample_question) "clientA" emptyWorld = (Ok tt, w') /\
    no_update emptyWorld w' /\
    outbound w' =
      [ SendTextMessage
          {| x_recipient := JString "6591234567"; x_apiClient := "clientA";
             x_body := autoReplyText |} ] /\
    JString "6591234567" = JString "6591234567".
Proof.
  assert (F : faithful RegExp_prototype_test).
  { intros r s b H. injection H as <-. reflexivity. }
  assert (A : answers RegExp_prototype_test (Str.toLowerCase (sanitise sample_question))).
  { intros r _ e H. discriminate H. }
  assert (Hs : senderId (message_webhook sample_question) = Some (JString "6591234567"))
    by reflexivity.
  assert (Ht : inboundText (message_webhook sample_question) = Some sample_question)
    by reflexivity.
  assert (L : 1 <= String.length (sanitise sample_question) <= 256) by (vm_compute; lia).
  assert (N : ~ automated_notice (Str.toLowerCase (sanitise sample_question))).
  { intros [(c & _ & H)|[H|[H|[H|[(c & d & _ & _ & H)|H]]]]].
    - apply (Str_contains_app_l "auto") in H. no_infix H.
    - no_infix H.
    - no_infix H.
    - no_infix H.
    - apply (Str_contains_app_l "out") in H. no_infix H.
    - no_infix H. }
  repeat (split; [assumption |]).
  exact (C7_qualifying_message_one_reply "production" RegExp_prototype_test
           (message_webhook sample_question) "clientA" (JString "6591234567")
           sample_question emptyWorld F A Hs Ht L N).
Defined.

(** * Status reconciliation *)

Lemma find_row_lookup (messageId : JsValue) (rows : list GovsgMessage) (i : nat) :
  find_row messageId rows = Some i ->
  exists r, rows !! i = Some r /\ messageId = JString (serviceProviderMessageId r).
Proof.
  revert i. induction rows as [|r rows IH]; simpl; intros i H; [discriminate |].
  destruct messageId as [| | | |s| |]; try discriminate.
  destruct (String.eqb (serviceProviderMessageId r) s) eqn:E.
  - injection H as <-. apply String.eqb_eq in E. subst s. exists r. auto.
  - destruct (find_row (JString s) rows) as [j|] eqn:Fj; [|discriminate].
    injection H as <-. destruct (IH j eq_refl) as (r' & L & K). exists r'. auto.
Qed.

Lemma alter_insert (f : GovsgMessage -> GovsgMessage) (rows : list GovsgMessage)
    (i : nat) (r : GovsgMessage) :
  rows !! i = Some r -> alter f i rows = <[i := f r]> rows.
Proof.
  revert i. induction rows as [|x rows IH]; intros [|i] H; try discriminate.
  - injection H as ->. reflexivity.
  - simpl. f_equal. apply IH. exact H.
Qed.

(** Runs [parseTemplateMessageWebhook] up to and including the two
    lookups, given the three reads [E1], [E2], [E3] of the message id and
    the lookup results [Fo], [Ft]. *)
Ltac reconcile_lookups E1 E2 E3 Fo Ft :=
  unfold parseTemplateMessageWebhook;
  rewrite E1, bind_orTypeError_Some, E2, bind_orTypeError_Some,
    E3, bind_orTypeError_Some;
  unfold bind at 1; unfold findOne at 1; cbn [table_of]; rewrite Fo;
  unfold bind at 1; unfold findOne at 1; cbn [table_of]; rewrite Ft.

(** C9.  A status event whose message id, a string, is in neither table
    changes no row, issues no update, sends nothing, and returns
    normally. *)
Theorem C9_unknown_message_ignored
    (now : Date) (mapper : WhatsAppMessageStatus.t -> GovsgMessageStatus)
    (body : JsValue) (id : string) (w : World) :
  eventMessageId body = Some (JString id) ->
  find_row (JString id) (govsgMessages w) = None ->
  find_row (JString id) (govsgMessagesTransactional w) = None ->
  exists w',
    parseTemplateMessageWebhook now mapper body w = (Ok tt, w') /\
    no_update w w' /\
    outbound w' = outbound w.
Proof.
  intros Hid Fo Ft.
  apply eventMessageId_inv in Hid as (e & He & E3).
  apply statusEvent_inv in He as (statuses & E1 & E2).
  reconcile_lookups E1 E2 E3 Fo Ft.
  eexists. split; [reflexivity |]. unfold no_update. simpl. auto.
Qed.

(** An instance of C9: an id that neither table holds. *)
Lemma C9_unknown_message_ignored_witness :
  eventMessageId (status_webhook "reply-42" "delivered") = Some (JString "reply-42") /\
  find_row (JString "reply-42") (govsgMessages sample_world) = None /\
  find_row (JString "reply-42") (govsgMessagesTransactional sample_world) = None /\
  exists w',
    parseTemplateMessageWebhook sample_now sample_mapper
      (status_webhook "reply-42" "delivered") sample_world = (Ok tt, w') /\
    no_update sample_world w' /\
    outbound w' = outbound sample_world.
Proof.
  repeat (split; [reflexivity |]).
  exact (C9_unknown_message_ignored sample_now sample_mapper
           (status_webhook "reply-42" "delivered") "reply-42" sample_world
           eq_refl eq_refl eq_refl).
Defined.

(** C2.  A status event whose message id is in both tables fails with
    the error the specification calls [InvariantViolationError]; no row is
    changed and no update is issued. *)
Theorem C2_message_in_both_tables_rejected
    (now : Date) (mapper : WhatsAppMessageStatus.t -> GovsgMessageStatus)
    (body messageId : JsValue) (i j : nat) (w : World) :
  eventMessageId body = Some messageId ->
  find_row messageId (govsgMessages w) = Some i ->
  find_row messageId (govsgMessagesTransactional w) = Some j ->
  exists w',
    parseTemplateMessageWebhook now mapper body w = (Threw InvariantViolationError, w') /\
    no_update w w' /\
    outbound w' = outbound w.
Proof.
  intros Hid Fo Ft.
  apply eventMessageId_inv in Hid as (e & He & E3).
  apply statusEvent_inv in He as (statuses & E1 & E2).
  reconcile_lookups E1 E2 E3 Fo Ft.
  eexists. split; [reflexivity |]. unfold no_update. simpl. auto.
Qed.

(** An instance of C2: [m1] in both tables. *)
Lemma C2_message_in_both_tables_rejected_witness :
  eventMessageId (status_webhook "m1" "delivered") = Some (JString "m1") /\
  find_row (JString "m1") (govsgMessages sample_world_both) = Some 0 /\
  find_row (JString "m1") (govsgMessagesTransactional sample_world_both) = Some 0 /\
  exists w',
    parseTemplateMessageWebhook sample_now sample_mapper
      (status_webhook "m1" "delivered") sample_world_both
      = (Threw InvariantViolationError, w') /\
    no_update sample_world_both w' /\
    outbound w' = outbound sample_world_both.
Proof.
  repeat (split; [reflexivity |]).
  exact (C2_message_in_both_tables_rejected sample_now sample_mapper
           (status_webhook "m1" "delivered") (JString "m1") 0 0 sample_world_both
           eq_refl eq_refl eq_refl).
Defined.

Lemma switch_status_value (m : WhatsAppMessageStatus.t) :
  switch_status (JString (WhatsAppMessageStatus.value m)) = Some m.
Proof. destruct m; reflexivity. Qed.

Lemma switch_status_unknown (v : JsValue) :
  (forall m, v <> JString (WhatsAppMessageStatus.value m)) ->
  switch_status v = None.
Proof.
  intros H. unfold switch_status, WhatsAppMessageStatus.strict_eq.
  destruct v as [| | | |s| |]; try reflexivity.
  repeat match goal with
         | |- context [String.eqb s (WhatsAppMessageStatus.value ?m)] =>
             destruct (String.eqb_spec s (WhatsAppMessageStatus.value m)) as [->|_];
             [exfalso; exact (H m eq_refl) |]
         end.
  reflexivity.
Qed.

(** A status outside the vocabulary, of whatever type, reaches the
    [default] case: the message of the error is built from its text. *)
Lemma unknown_status_throws
    (now : Date) (mapper : WhatsAppMessageStatus.t -> GovsgMessageStatus)
    (body messageId v : JsValue) (text : string) (t : Table) (i : nat) (w : World) :
  eventMessageId body = Some messageId ->
  eventStatus body = Some v ->
  (forall m, v <> JString (WhatsAppMessageStatus.value m)) ->
  Js.within v = true ->
  Js.to_string v = Some text ->
  find_row messageId (table_of t w) = Some i ->
  find_row messageId (table_of (other t) w) = None ->
  parseTemplateMessageWebhook now mapper body w = (Threw (UnhandledStatusError text), w).
Proof.
  intros Hid Hst Hv _ Htext Fi Fn.
  apply eventMessageId_inv in Hid as (e & He & E3).
  unfold eventStatus in Hst. rewrite He in Hst. simpl in Hst.
  apply statusEvent_inv in He as (statuses & E1 & E2).
  apply switch_status_unknown in Hv.
  destruct t; simpl in Fi, Fn.
  - reconcile_lookups E1 E2 E3 Fi Fn.
    rewrite Hst, bind_orTypeError_Some, Hv, Htext. reflexivity.
  - reconcile_lookups E1 E2 E3 Fn Fi.
    rewrite Hst, bind_orTypeError_Some, Hv, Htext. reflexivity.
Qed.

(** C6.  A status event whose status is none of the six known values,
    and whose message id is in exactly one table, fails with the error
    the specification calls [UnhandledStatusError]; no row is changed, no
    update is issued: the world is left as it was. *)
Theorem C6_unknown_status_rejected
    (now : Date) (mapper : WhatsAppMessageStatus.t -> GovsgMessageStatus)
    (body messageId : JsValue) (status : string) (t : Table) (i : nat) (w : World) :
  eventMessageId body = Some messageId ->
  eventStatus body = Some (JString status) ->
  (forall m, status <> WhatsAppMessageStatus.value m) ->
  find_row messageId (table_of t w) = Some i ->
  find_row messageId (table_of (other t) w) = None ->
  parseTemplateMessageWebhook now mapper body w
    = (Threw (UnhandledStatusError status), w) /\
  no_update w w.
Proof.
  intros Hid Hst Hv Fi Fn. split; [|unfold no_update; auto].
  apply (unknown_status_throws now mapper body messageId (JString status) status t i w);
    try assumption; [|reflexivity |reflexivity].
  intros m E. injection E as E. exact (Hv m E).
Qed.

(** An instance of C6: the status [accepted] for the transactional
    message [t1]. *)
Lemma C6_unknown_status_rejected_witness :
  eventMessageId (status_webhook "t1" "accepted") = Some (JString "t1") /\
  eventStatus (status_webhook "t1" "accepted") = Some (JString "accepted") /\
  (forall m, "accepted" <> WhatsAppMessageStatus.value m) /\
  find_row (JString "t1") (table_of Transactional sample_world) = Some 0 /\
  find_row (JString "t1") (table_of (other Transactional) sample_world) = None /\
  parseTemplateMessageWebhook sample_now sample_mapper
    (status_webhook "t1" "accepted") sample_world
    = (Threw (UnhandledStatusError "accepted"), sample_world) /\
  no_update sample_world sample_world.
Proof.
  assert (V : forall m, "accepted" <> WhatsAppMessageStatus.value m).
  { intros m. destruct m; discriminate. }
  split; [reflexivity |]. split; [reflexivity |]. split; [exact V |].
  split; [reflexivity |]. split; [reflexivity |].
  exact (C6_unknown_status_rejected sample_now sample_mapper
           (status_webhook "t1" "accepted") (JString "t1") "accepted"
           Transactional 0 sample_world
           eq_refl eq_refl V eq_refl eq_refl).
Defined.

Lemma update_run (t : Table) (i : nat) (r : GovsgMessage) (f : FieldOpts)
    (messageId : JsValue) (w : World) :
  table_of t w !! i = Some r ->
  exists w',
    update_both (match t with Ordinary => Some i | Transactional => None end)
                (match t with Ordinary => None | Transactional => Some i end)
                f (whereOpts_of messageId) w = (Ok tt, w') /\
    one_update t i (apply_fields f r) f messageId [] w w'.
Proof.
  intros L. unfold update_both, update, bind, one_update.
  destruct t; simpl in L |- *; eexists; (split; [reflexivity |]); simpl;
    rewrite (alter_insert _ _ _ _ L), app_nil_r; auto.
Qed.

(** C5.  For a status event with one of the statuses [sent],
    [delivered], [read], [deleted] whose message id is in exactly one
    table, one update is issued, on the row found: it sets the status (as
    mapped) and the time stamp of that status, and leaves every other
    column of the row, every other row, the other table, the outbound
    client and the log as they were. *)
Theorem C5_status_sets_its_timestamp
    (now : Date) (mapper : WhatsAppMessageStatus.t -> GovsgMessageStatus)
    (body messageId : JsValue) (m : WhatsAppMessageStatus.t)
    (t : Table) (i : nat) (w : World) :
  In m [WhatsAppMessageStatus.sent; WhatsAppMessageStatus.delivered;
        WhatsAppMessageStatus.read; WhatsAppMessageStatus.deleted] ->
  eventMessageId body = Some messageId ->
  eventStatus body = Some (JString (WhatsAppMessageStatus.value m)) ->
  find_row messageId (table_of t w) = Some i ->
  find_row messageId (table_of (other t) w) = None ->
  exists r f w',
    table_of t w !! i = Some r /\
    messageId = JString (serviceProviderMessageId r) /\
    parseTemplateMessageWebhook now mapper body w = (Ok tt, w') /\
    one_update t i (stamped now (mapper m) m r) f messageId [] w w' /\
    (forall x, apply_fields f x = stamped now (mapper m) m x).
Proof.
  intros Hm Hid Hst Fi Fn.
  apply eventMessageId_inv in Hid as (e & He & E3).
  unfold eventStatus in Hst. rewrite He in Hst. simpl in Hst.
  apply statusEvent_inv in He as (statuses & E1 & E2).
  destruct (find_row_lookup _ _ _ Fi) as (r & L & K).
  exists r.
  assert (S : switch_status (JString (WhatsAppMessageStatus.value m)) = Some m)
    by apply switch_status_value.
  simpl in Hm.
  destruct t; simpl in Fi, Fn;
    [ reconcile_lookups E1 E2 E3 Fi Fn | reconcile_lookups E1 E2 E3 Fn Fi ];
    rewrite Hst, bind_orTypeError_Some, S;
    destruct Hm as [<-|[<-|[<-|[<-|[]]]]];
    match goal with
    | |- context [update_both _ _ ?f _ w] =>
        match goal with
        | |- context [update_both (Some i) None] =>
            destruct (update_run Ordinary i r f messageId w L) as (w' & E & U)
        | |- context [update_both None (Some i)] =>
            destruct (update_run Transactional i r f messageId w L) as (w' & E & U)
        end;
        exists f, w'; repeat split; try assumption; try apply U
    end.
Qed.

(** An instance of C5: [delivered] for the ordinary message [m1]. *)
Lemma C5_status_sets_its_timestamp_witness :
  In WhatsAppMessageStatus.delivered
    [WhatsAppMessageStatus.sent; WhatsAppMessageStatus.delivered;
     WhatsAppMessageStatus.read; WhatsAppMessageStatus.deleted] /\
  eventMessageId (status_webhook "m1" "delivered") = Some (JString "m1") /\
  eventStatus (status_webhook "m1" "delivered")
    = Some (JString (WhatsAppMessageStatus.value WhatsAppMessageStatus.delivered)) /\
  find_row (JString "m1") (table_of Ordinary sample_world) = Some 1 /\
  find_row (JString "m1") (table_of (other Ordinary) sample_world) = None /\
  exists r f w',
    table_of Ordinary sample_world !! 1 = Some r /\
    JString "m1" = JString (serviceProviderMessageId r) /\
    parseTemplateMessageWebhook sample_now sample_mapper
      (status_webhook "m1" "delivered") sample_world = (Ok tt, w') /\
    one_update Ordinary 1
      (stamped sample_now "DELIVERED" WhatsAppMessageStatus.delivered r)
      f (JString "m1") [] sample_world w' /\
    (forall x,
       apply_fields f x = stamped sample_now "DELIVERED" WhatsAppMessageStatus.delivered x).
Proof.
  assert (I : In WhatsAppMessageStatus.delivered
                [WhatsAppMessageStatus.sent; WhatsAppMessageStatus.delivered;
                 WhatsAppMessageStatus.read; WhatsAppMessageStatus.deleted])
    by (simpl; tauto).
  split; [exact I |].
  repeat (split; [reflexivity |]).
  exact (C5_status_sets_its_timestamp sample_now sample_mapper
           (status_webhook "m1" "delivered") (JString "m1")
           WhatsAppMessageStatus.delivered Ordinary 1 sample_world
           I eq_refl eq_refl eq_refl eq_refl).
Defined.

Lemma one_update_after_log (t : Table) (i : nat) (r' : GovsgMessage) (f : FieldOpts)
    (messageId : JsValue) (l : LogLevel) (e : JsValue) (w w' : World) :
  one_update t i r' f messageId [] (snd (log l e w)) w' ->
  one_update t i r' f messageId [mkLog l e] w w'.
Proof.
  unfold one_update. destruct t; simpl; rewrite app_nil_r; intuition.
Qed.

(** C1, as amended.  Take a status event with the status [failed] whose
    message id is in exactly one table, and a body that carries a
    non-empty [errors] array at its top level, next to [statuses].  Let
    the first error have a [code] with a [toString] (it is neither
    [undefined] nor [null]), and let its [code], [title], [details] and
    [href] be values within the model that convert to text (a field that
    is absent reads [undefined], which converts).  Then one update is
    issued, on the row found: it sets the status (as mapped),
    [erroredAt], [errorCode] to [code.toString()], and [errorDescription]
    to the texts of [title], [details] and [href] in the form
    "title Details: details href: href"; every other column is left as it
    was. *)
Theorem C1_failed_with_errors_sets_details
    (now : Date) (mapper : WhatsAppMessageStatus.t -> GovsgMessageStatus)
    (body messageId error0 code title details href : JsValue) (rest : list JsValue)
    (errorCode title_s details_s href_s : string)
    (t : Table) (i : nat) (w : World) :
  eventMessageId body = Some messageId ->
  eventStatus body = Some (JString (WhatsAppMessageStatus.value WhatsAppMessageStatus.failed)) ->
  bodyErrors body = Some (JArray (error0 :: rest)) ->
  Js.get error0 "code" = Some code ->
  Js.get error0 "title" = Some title ->
  Js.get error0 "details" = Some details ->
  Js.get error0 "href" = Some href ->
  Js.within code = true ->
  Js.within title = true ->
  Js.within details = true ->
  Js.within href = true ->
  Js.toString_method code = Some errorCode ->
  Js.to_string title = Some title_s ->
  Js.to_string details = Some details_s ->
  Js.to_string href = Some href_s ->
  find_row messageId (table_of t w) = Some i ->
  find_row messageId (table_of (other t) w) = None ->
  exists r f w',
    table_of t w !! i = Some r /\
    messageId = JString (serviceProviderMessageId r) /\
    parseTemplateMessageWebhook now mapper body w = (Ok tt, w') /\
    one_update t i
      (errored now (mapper WhatsAppMessageStatus.failed) errorCode
         (title_s +:+ " Details: " +:+ details_s +:+ " href: " +:+ href_s) r)
      f messageId
      [mkLog Info (obj [("message", str "Received webhook with error status")])] w w' /\
    (forall x,
       apply_fields f x =
       errored now (mapper WhatsAppMessageStatus.failed) errorCode
         (title_s +:+ " Details: " +:+ details_s +:+ " href: " +:+ href_s) x).
Proof.
  intros Hid Hst Herr Hc Ht Hd Hh _ _ _ _ Sc St Sd Sh Fi Fn.
  apply eventMessageId_inv in Hid as (e & He & E3).
  unfold eventStatus in Hst. rewrite He in Hst. simpl in Hst.
  apply statusEvent_inv in He as (statuses & E1 & E2).
  destruct (find_row_lookup _ _ _ Fi) as (r & L & K).
  unfold bodyErrors in Herr.
  exists r.
  assert (Sw : switch_status (JString "failed") = Some WhatsAppMessageStatus.failed)
    by reflexivity.
  destruct t; simpl in Fi, Fn;
    [ reconcile_lookups E1 E2 E3 Fi Fn | reconcile_lookups E1 E2 E3 Fn Fi ];
    rewrite Hst, bind_orTypeError_Some, Sw;
    unfold bind at 1; cbn [log];
    rewrite Herr, bind_orTypeError_Some;
    cbn [Js.truthy negb Js.get String.eqb Ascii.eqb Bool.eqb orTypeError];
    rewrite !bind_ret;
    cbn [length Z.of_nat Z.eqb Js.first];
    rewrite bind_orTypeError_Some, Hc, bind_orTypeError_Some, Ht, bind_orTypeError_Some,
      Hd, bind_orTypeError_Some, Hh, bind_orTypeError_Some, Sc, bind_orTypeError_Some,
      St, bind_orTypeError_Some, Sd, bind_orTypeError_Some, Sh, bind_orTypeError_Some;
    change (Z.of_nat (S (length rest)) =? 0)%Z with false; cbv iota;
    match goal with
    | |- context [update_both _ _ ?f _ ?w1] =>
        match goal with
        | |- context [update_both (Some i) None] =>
            destruct (update_run Ordinary i r f messageId w1 L) as (w' & E & U)
        | |- context [update_both None (Some i)] =>
            destruct (update_run Transactional i r f messageId w1 L) as (w' & E & U)
        end;
        exists f, w'; repeat split; try assumption;
        try (apply (one_update_after_log _ _ _ _ _ _ _ _ _ U))
    end.
Qed.

(** An instance of C1 as amended: error 470 next to [statuses]. *)
Lemma C1_failed_with_errors_sets_details_witness :
  eventMessageId failed_webhook_top = Some (JString "m1") /\
  eventStatus failed_webhook_top = Some (JString "failed") /\
  bodyErrors failed_webhook_top = Some (JArray [sample_error]) /\
  Js.get sample_error "code" = Some (JNumber 470) /\
  Js.get sample_error "title" = Some (JString "Message failed to send") /\
  Js.get sample_error "details" = Some (JString "Outside the allowed window") /\
  Js.get sample_error "href" = Some (JString "https://example.test/errors") /\
  Js.within (JNumber 470) = true /\
  Js.within (JString "Message failed to send") = true /\
  Js.within (JString "Outside the allowed window") = true /\
  Js.within (JString "https://example.test/errors") = true /\
  Js.toString_method (JNumber 470) = Some "470" /\
  find_row (JString "m1") (table_of Ordinary sample_world) = Some 1 /\
  find_row (JString "m1") (table_of (other Ordinary) sample_world) = None /\
  exists r f w',
    table_of Ordinary sample_world !! 1 = Some r /\
    JString "m1" = JString (serviceProviderMessageId r) /\
    parseTemplateMessageWebhook sample_now sample_mapper failed_webhook_top sample_world
      = (Ok tt, w') /\
    one_update Ordinary 1
      (errored sample_now "FAILED" "470"
         "Message failed to send Details: Outside the allowed window href: https://example.test/errors"
         r)
      f (JString "m1")
      [mkLog Info (obj [("message", str "Received webhook with error status")])]
      sample_world w' /\
    (forall x,
       apply_fields f x =
       errored sample_now "FAILED" "470"
         "Message failed to send Details: Outside the allowed window href: https://example.test/errors"
         x).
Proof.
  repeat (split; [reflexivity |]).
  exact (C1_failed_with_errors_sets_details sample_now sample_mapper failed_webhook_top
           (JString "m1") sample_error (JNumber 470)
           (JString "Message failed to send") (JString "Outside the allowed window")
           (JString "https://example.test/errors") []
           "470" "Message failed to send" "Outside the allowed window"
           "https://example.test/errors"
           Ordinary 1 sample_world
           eq_refl eq_refl eq_refl eq_refl eq_refl eq_refl eq_refl
           eq_refl eq_refl eq_refl eq_refl
           eq_refl eq_refl eq_refl eq_refl eq_refl eq_refl).
Defined.

(** The conditions of C1 as amended are needed: a first error without a
    [code] stops the call at [code.toString()], before any update. *)
Example failed_error_without_code_throws :
  parseTemplateMessageWebhook sample_now sample_mapper
    (JObject [("statuses",
               JArray [JObject [("id", JString "m1"); ("status", JString "failed")]]);
              ("errors", JArray [JObject [("title", JString "Message failed to send")]])])
    sample_world
  = (Threw TypeError,
     snd (log Info (obj [("message", str "Received webhook with error status")])
            sample_world)).
Proof. vm_compute. reflexivity. Qed.

(** C1, as stated, fails when the errors sit where the wire shape of the
    specification puts them, inside the status element: the code reads
    [body.errors], finds none, and sets the status and [erroredAt] only. *)
Lemma C1_counterexample_nested_errors :
  eventMessageId failed_webhook_nested = Some (JString "m1") /\
  eventStatus failed_webhook_nested = Some (JString "failed") /\
  eventErrors failed_webhook_nested = Some (JArray [sample_error]) /\
  find_row (JString "m1") (govsgMessages sample_world) = Some 1 /\
  find_row (JString "m1") (govsgMessagesTransactional sample_world) = None /\
  exists w',
    parseTemplateMessageWebhook sample_now sample_mapper failed_webhook_nested sample_world
      = (Ok tt, w') /\
    govsgMessages w' !! 1 =
      Some (stamped sample_now "FAILED" WhatsAppMessageStatus.failed (sample_row "m1")) /\
    (errorCode <$> govsgMessages w' !! 1) = Some None /\
    (errorDescription <$> govsgMessages w' !! 1) = Some None.
Proof.
  repeat (split; [reflexivity |]).
  eexists. split; [vm_compute; reflexivity |].
  repeat split.
Qed.

(** * The classifier *)

Lemma log_then {A} (l : LogLevel) (e : JsValue) (m : M A) (w : World) :
  (log l e ;; m) w = m (snd (log l e w)).
Proof. reflexivity. Qed.

Lemma only_logged_log2 (l1 l2 : LogLevel) (e1 e2 : JsValue) (w : World) :
  only_logged w (snd (log l2 e2 (snd (log l1 e1 w)))).
Proof.
  eapply only_logged_trans; [apply only_logged_log |]. apply only_logged_log.
Qed.

(** C3, as amended.  A body that is not an object (or is [null]) fails
    with the error the specification calls [MalformedWebhookError].  An
    object with a [statuses] key goes to reconciliation, whatever other
    keys it has.  An object without [statuses] but with both [messages]
    and [contacts] goes to the decision path.  Every other object, an
    array included, fails with [MalformedWebhookError].  Up to the hand-over
    or the failure, only log entries are written. *)
Theorem C3_parseWebhook_classifies
    (config_env : string) (now : Date)
    (mapper : WhatsAppMessageStatus.t -> GovsgMessageStatus)
    (engine : Re.RegExp -> string -> Outcome)
    (body : JsValue) (clientId : WhatsAppApiClient) (w : World) :
  exists w1,
    only_logged w w1 /\
    parseWebhook config_env now mapper engine body clientId w =
    match body with
    | JObject _ =>
        if Js.has "statuses" body then
          parseTemplateMessageWebhook now mapper body w1
        else if Js.has "messages" body && Js.has "contacts" body then
          parseUserMessageWebhook config_env engine body clientId w1
        else (Threw MalformedWebhookError, w1)
    | _ => (Threw MalformedWebhookError, w1)
    end.
Proof.
  unfold parseWebhook. rewrite log_then.
  destruct body as [| |b|n|s|l|props].
  - cbn [Js.truthy Js.typeof_object negb orb]. rewrite log_then.
    eexists. split; [apply only_logged_log2 | reflexivity].
  - cbn [Js.truthy Js.typeof_object negb orb]. rewrite log_then.
    eexists. split; [apply only_logged_log2 | reflexivity].
  - cbn [Js.typeof_object negb]. rewrite orb_true_r, log_then.
    eexists. split; [apply only_logged_log2 | reflexivity].
  - cbn [Js.typeof_object negb]. rewrite orb_true_r, log_then.
    eexists. split; [apply only_logged_log2 | reflexivity].
  - cbn [Js.typeof_object negb]. rewrite orb_true_r, log_then.
    eexists. split; [apply only_logged_log2 | reflexivity].
  - cbn [Js.truthy Js.typeof_object negb orb Js.has andb]. rewrite log_then.
    eexists. split; [apply only_logged_log2 | reflexivity].
  - cbn [Js.truthy Js.typeof_object negb orb].
    destruct (Js.has "statuses" (JObject props)).
    + rewrite log_then. eexists. split; [apply only_logged_log2 | reflexivity].
    + destruct (Js.has "messages" (JObject props) && Js.has "contacts" (JObject props)).
      * rewrite log_then. eexists. split; [apply only_logged_log2 | reflexivity].
      * rewrite log_then. eexists. split; [apply only_logged_log2 | reflexivity].
Qed.

(** The end-to-end scenario of the specification: [delivered] for the
    ordinary message [m1] gives one update, on the ordinary table. *)
Example delivered_end_to_end :
  exists w',
    parseWebhook "production" sample_now sample_mapper RegExp_prototype_test
      (status_webhook "m1" "delivered") "clientA" sample_world = (Ok tt, w') /\
    updateCalls w' =
      [ mkUpdateCall Ordinary 1
          {| f_status := Some "DELIVERED"; f_sentAt := None;
             f_deliveredAt := Some sample_now;
             f_readAt := None; f_deletedAt := None; f_erroredAt := None;
             f_errorCode := None; f_errorDescription := None |}
          (whereOpts_of (JString "m1")) ] /\
    govsgMessagesTransactional w' = govsgMessagesTransactional sample_world /\
    outbound w' = [].
Proof. eexists. split; [vm_compute; reflexivity |]. repeat split. Qed.

(** C3, as stated, fails on a body with all three keys: it holds both a
    [messages] and a [contacts] array, yet the call reconciles the status
    (one update, no reply) where the decision path would have replied. *)
Lemma C3_counterexample_all_three_keys :
  (exists ms cs,
     Js.get mixed_webhook "messages" = Some (JArray ms) /\
     Js.get mixed_webhook "contacts" = Some (JArray cs)) /\
  (exists w',
     parseWebhook "development" sample_now sample_mapper RegExp_prototype_test
       mixed_webhook "clientA" sample_world = (Ok tt, w') /\
     length (updateCalls w') = 1 /\
     outbound w' = []) /\
  (exists w',
     parseUserMessageWebhook "development" RegExp_prototype_test
       mixed_webhook "clientA" sample_world = (Ok tt, w') /\
     updateCalls w' = [] /\
     length (outbound w') = 1).
Proof.
  split; [|split].
  - do 2 eexists. split; reflexivity.
  - eexists. split; [vm_compute; reflexivity |]. split; reflexivity.
  - eexists. split; [vm_compute; reflexivity |]. split; reflexivity.
Qed.

(** * Further properties of the service *)

(** ** Reconciliation: the branches the claims leave out *)

(** X1.  A [failed] status whose body has no error details ([errors]
    absent, falsy, or of length 0), for a message id in exactly one table,
    is no error: one update is issued, on the row found, which sets the
    status and [erroredAt] and leaves [errorCode], [errorDescription] and
    every other column as they were; the anomaly is logged. *)
Theorem X1_failed_without_details
    (now : Date) (mapper : WhatsAppMessageStatus.t -> GovsgMessageStatus)
    (body messageId errors : JsValue) (t : Table) (i : nat) (w : World) :
  eventMessageId body = Some messageId ->
  eventStatus body = Some (JString "failed") ->
  bodyErrors body = Some errors ->
  no_error_details errors = true ->
  find_row messageId (table_of t w) = Some i ->
  find_row messageId (table_of (other t) w) = None ->
  exists r f w',
    table_of t w !! i = Some r /\
    parseTemplateMessageWebhook now mapper body w = (Ok tt, w') /\
    one_update t i
      (stamped now (mapper WhatsAppMessageStatus.failed) WhatsAppMessageStatus.failed r)
      f messageId [error_status_entry; no_details_entry messageId body] w w' /\
    (forall x,
       apply_fields f x =
       stamped now (mapper WhatsAppMessageStatus.failed) WhatsAppMessageStatus.failed x) /\
    f_errorCode f = None /\ f_errorDescription f = None.
Proof.
  intros Hid Hst Herr Hno Fi Fn.
  apply eventMessageId_inv in Hid as (e & He & E3).
  unfold eventStatus in Hst. rewrite He in Hst. simpl in Hst.
  apply statusEvent_inv in He as (statuses & E1 & E2).
  destruct (find_row_lookup _ _ _ Fi) as (r & L & K).
  unfold bodyErrors in Herr. unfold no_error_details in Hno.
  exists r.
  assert (Sw : switch_status (JString "failed") = Some WhatsAppMessageStatus.failed)
    by reflexivity.
  assert (D : forall (k : bool -> M unit),
             bind (if negb (Js.truthy errors) then ret true
                   else bind (orTypeError (Js.get errors "length"))
                          (fun len => ret (match len with
                                           | JNumber n => (n =? 0)%Z
                                           | _ => false
                                           end))) k = k true).
  { intros k. destruct (Js.truthy errors) eqn:T; cbn [negb orb] in Hno |- *.
    - destruct (Js.get errors "length") as [[| | |n| | |]|]; try discriminate Hno.
      rewrite bind_orTypeError_Some, bind_ret, Hno. reflexivity.
    - reflexivity. }
  destruct t; simpl in Fi, Fn;
    [ reconcile_lookups E1 E2 E3 Fi Fn | reconcile_lookups E1 E2 E3 Fn Fi ];
    rewrite Hst, bind_orTypeError_Some, Sw;
    unfold bind at 1; cbn [log];
    rewrite Herr, bind_orTypeError_Some, D;
    unfold bind at 1; cbn [log];
    match goal with
    | |- context [update_both _ _ ?f _ ?w1] =>
        match goal with
        | |- context [update_both (Some i) None] =>
            destruct (update_run Ordinary i r f messageId w1 L) as (w' & E & U)
        | |- context [update_both None (Some i)] =>
            destruct (update_run Transactional i r f messageId w1 L) as (w' & E & U)
        end;
        exists f, w'; repeat split; try assumption;
        unfold one_update in U |- *; cbn [table_of other logs updateCalls outbound
          govsgMessages govsgMessagesTransactional] in U |- *;
        try rewrite app_nil_r in U; try rewrite <- app_assoc in U; try apply U
    end.
Qed.

(** An instance of X1: [failed] for [m1] with no [errors] key at all. *)
Lemma X1_failed_without_details_witness :
  eventMessageId failed_webhook_bare = Some (JString "m1") /\
  eventStatus failed_webhook_bare = Some (JString "failed") /\
  bodyErrors failed_webhook_bare = Some JUndefined /\
  no_error_details JUndefined = true /\
  find_row (JString "m1") (table_of Ordinary sample_world) = Some 1 /\
  find_row (JString "m1") (table_of (other Ordinary) sample_world) = None /\
  exists r f w',
    table_of Ordinary sample_world !! 1 = Some r /\
    parseTemplateMessageWebhook sample_now sample_mapper failed_webhook_bare sample_world
      = (Ok tt, w') /\
    one_update Ordinary 1
      (stamped sample_now "FAILED" WhatsAppMessageStatus.failed r)
      f (JString "m1")
      [error_status_entry; no_details_entry (JString "m1") failed_webhook_bare]
      sample_world w' /\
    (forall x,
       apply_fields f x = stamped sample_now "FAILED" WhatsAppMessageStatus.failed x) /\
    f_errorCode f = None /\ f_errorDescription f = None.
Proof.
  repeat (split; [reflexivity |]).
  exact (X1_failed_without_details sample_now sample_mapper failed_webhook_bare
           (JString "m1") JUndefined Ordinary 1 sample_world
           eq_refl eq_refl eq_refl eq_refl eq_refl eq_refl).
Defined.

(** X2.  A [warning] status for a message id in exactly one table changes
    nothing: no update is issued, nothing is sent, the call returns
    normally and leaves one warning in the log. *)
Theorem X2_warning_changes_nothing
    (now : Date) (mapper : WhatsAppMessageStatus.t -> GovsgMessageStatus)
    (body messageId : JsValue) (t : Table) (i : nat) (w : World) :
  eventMessageId body = Some messageId ->
  eventStatus body = Some (JString "warning") ->
  find_row messageId (table_of t w) = Some i ->
  find_row messageId (table_of (other t) w) = None ->
  exists w',
    parseTemplateMessageWebhook now mapper body w = (Ok tt, w') /\
    no_update w w' /\
    outbound w' = outbound w /\
    logs w' = logs w ++ [warning_entry messageId body].
Proof.
  intros Hid Hst Fi Fn.
  apply eventMessageId_inv in Hid as (e & He & E3).
  unfold eventStatus in Hst. rewrite He in Hst. simpl in Hst.
  apply statusEvent_inv in He as (statuses & E1 & E2).
  assert (Sw : switch_status (JString "warning") = Some WhatsAppMessageStatus.warning)
    by reflexivity.
  destruct t; simpl in Fi, Fn;
    [ reconcile_lookups E1 E2 E3 Fi Fn | reconcile_lookups E1 E2 E3 Fn Fi ];
    rewrite Hst, bind_orTypeError_Some, Sw;
    (eexists; split; [reflexivity |]; unfold no_update; simpl; auto).
Qed.

(** An instance of X2: a warning about [m1]. *)
Lemma X2_warning_changes_nothing_witness :
  eventMessageId warning_webhook = Some (JString "m1") /\
  eventStatus warning_webhook = Some (JString "warning") /\
  find_row (JString "m1") (table_of Ordinary sample_world) = Some 1 /\
  find_row (JString "m1") (table_of (other Ordinary) sample_world) = None /\
  exists w',
    parseTemplateMessageWebhook sample_now sample_mapper warning_webhook sample_world
      = (Ok tt, w') /\
    no_update sample_world w' /\
    outbound w' = outbound sample_world /\
    logs w' = logs sample_world ++ [warning_entry (JString "m1") warning_webhook].
Proof.
  repeat (split; [reflexivity |]).
  exact (X2_warning_changes_nothing sample_now sample_mapper warning_webhook
           (JString "m1") Ordinary 1 sample_world eq_refl eq_refl eq_refl eq_refl).
Defined.

(** ** Reconciliation: what every run does *)

Lemma findOne_bind {A} (t : Table) (messageId : JsValue)
    (k : option nat -> M A) (w : World) :
  bind (findOne t messageId) k w = k (find_row messageId (table_of t w)) w.
Proof. reflexivity. Qed.

(** One step through the reads of a handler: a read that succeeded or
    failed is passed on, a log entry is written, an undecided read or test
    is split. *)
Ltac reconcile_step :=
  first
    [ rewrite bind_orTypeError_Some
    | rewrite bind_orTypeError_None
    | rewrite bind_throw
    | rewrite bind_ret
    | rewrite log_then
    | match goal with |- context [orTypeError ?o] => destruct o eqn:? end
    | match goal with |- context [if ?b then _ else _] => destruct b eqn:? end
    | match goal with
      | |- context [match ?x with JNumber _ => _ | _ => _ end] => destruct x
      end ].

Ltac reconcile_close :=
  repeat match goal with
         | |- _ /\ _ => split
         | |- exists entries : list LogEntry, _ =>
             first [ exists []; rewrite app_nil_r; reflexivity
                   | eexists; rewrite <- ?app_assoc; reflexivity ]
         | |- exists (t : Table) (i : nat), _ =>
             do 2 eexists; repeat split; reflexivity
         | |- _ = _ => reflexivity
         end.

(** Two runs on one body, in worlds where the lookups of its message id
    agree, take the same path: the same result, and the same update if
    any. *)
Lemma reconcile_runs
    (now : Date) (mapper : WhatsAppMessageStatus.t -> GovsgMessageStatus)
    (body messageId : JsValue) (w1 w2 : World) :
  eventMessageId body = Some messageId ->
  find_row messageId (govsgMessages w2) = find_row messageId (govsgMessages w1) ->
  find_row messageId (govsgMessagesTransactional w2)
    = find_row messageId (govsgMessagesTransactional w1) ->
  exists fo r w1' w2',
    parseTemplateMessageWebhook now mapper body w1 = (r, w1') /\
    parseTemplateMessageWebhook now mapper body w2 = (r, w2') /\
    reconciled messageId fo r w1 w1' /\
    reconciled messageId fo r w2 w2'.
Proof.
  intros Hid F1 F2.
  apply eventMessageId_inv in Hid as (e & He & E3).
  apply statusEvent_inv in He as (statuses & E1 & E2).
  unfold parseTemplateMessageWebhook.
  rewrite E1, bind_orTypeError_Some, E2, bind_orTypeError_Some, E3, bind_orTypeError_Some.
  repeat (rewrite findOne_bind; cbn [table_of]).
  rewrite F1, F2.
  destruct (find_row messageId (govsgMessages w1)) as [i|] eqn:Fo;
    destruct (find_row messageId (govsgMessagesTransactional w1)) as [j|] eqn:Ft.
  - exists None. do 3 eexists. split; [reflexivity |]. split; [reflexivity |].
    unfold reconciled, no_update. cbn. repeat split; eauto.
  - destruct (Js.get e "status") as [v|];
      [rewrite bind_orTypeError_Some | rewrite bind_orTypeError_None].
    + destruct (switch_status v) as [[| | | | |]|]; repeat reconcile_step.
      all: first
             [ match goal with
               | |- context [update_both _ _ ?f _ _] => exists (Some f)
               end
             | exists None ].
      all: do 3 eexists; (split; [reflexivity |]); (split; [reflexivity |]).
      all: unfold reconciled, target, issued, no_update; cbn.
      all: rewrite ?F1, ?F2, ?Fo, ?Ft.
      all: reconcile_close.
    + exists None. do 3 eexists. split; [reflexivity |]. split; [reflexivity |].
      unfold reconciled, no_update. cbn. reconcile_close.
  - destruct (Js.get e "status") as [v|];
      [rewrite bind_orTypeError_Some | rewrite bind_orTypeError_None].
    + destruct (switch_status v) as [[| | | | |]|]; repeat reconcile_step.
      all: first
             [ match goal with
               | |- context [update_both _ _ ?f _ _] => exists (Some f)
               end
             | exists None ].
      all: do 3 eexists; (split; [reflexivity |]); (split; [reflexivity |]).
      all: unfold reconciled, target, issued, no_update; cbn.
      all: rewrite ?F1, ?F2, ?Fo, ?Ft.
      all: reconcile_close.
    + exists None. do 3 eexists. split; [reflexivity |]. split; [reflexivity |].
      unfold reconciled, no_update. cbn. reconcile_close.
  - exists None. do 3 eexists. split; [reflexivity |]. split; [reflexivity |].
    unfold reconciled, no_update. cbn. repeat split; eauto.
Qed.

(** Without a message id to read, the run stops at once. *)
Lemma reconcile_no_id
    (now : Date) (mapper : WhatsAppMessageStatus.t -> GovsgMessageStatus)
    (body : JsValue) (w : World) :
  eventMessageId body = None ->
  parseTemplateMessageWebhook now mapper body w = (Threw TypeError, w).
Proof.
  unfold eventMessageId, statusEvent, parseTemplateMessageWebhook. intros H.
  destruct (Js.get body "statuses") as [statuses|]; [|reflexivity].
  rewrite bind_orTypeError_Some. simpl in H.
  destruct (Js.first statuses) as [e|]; [|reflexivity].
  rewrite bind_orTypeError_Some. simpl in H.
  rewrite H. reflexivity.
Qed.

Lemma keys_alter (f : FieldOpts) (i : nat) (rows : list GovsgMessage) :
  keys (alter (apply_fields f) i rows) = keys rows.
Proof.
  revert i. induction rows as [|r rows IH]; intros [|i]; simpl; try reflexivity.
  f_equal. apply IH.
Qed.

Lemma find_row_keys (messageId : JsValue) (rows1 rows2 : list GovsgMessage) :
  keys rows1 = keys rows2 -> find_row messageId rows1 = find_row messageId rows2.
Proof.
  revert rows2. induction rows1 as [|r1 rows1 IH]; intros [|r2 rows2] H;
    try discriminate; [reflexivity |].
  simpl in H. injection H as Hk Hr. simpl. rewrite Hk, (IH rows2 Hr). reflexivity.
Qed.

Lemma apply_fields_idem (f : FieldOpts) (r : GovsgMessage) :
  apply_fields f (apply_fields f r) = apply_fields f r.
Proof.
  destruct f as [[?|] [?|] [?|] [?|] [?|] [?|] [?|] [?|]]; reflexivity.
Qed.

Lemma alter_idem (f : FieldOpts) (i : nat) (rows : list GovsgMessage) :
  alter (apply_fields f) i (alter (apply_fields f) i rows) = alter (apply_fields f) i rows.
Proof.
  revert i. induction rows as [|r rows IH]; intros [|i]; simpl; try reflexivity.
  - now rewrite apply_fields_idem.
  - f_equal. apply IH.
Qed.

(** Every run of the reconciliation, whatever the body and the world. *)
Lemma reconcile_run
    (now : Date) (mapper : WhatsAppMessageStatus.t -> GovsgMessageStatus)
    (body : JsValue) (w : World) :
  exists r w',
    parseTemplateMessageWebhook now mapper body w = (r, w') /\
    outbound w' = outbound w /\
    (exists entries, logs w' = logs w ++ entries) /\
    (no_update w w' \/
     r = Ok tt /\
     exists messageId t i f,
       eventMessageId body = Some messageId /\
       target w messageId = Some (t, i) /\
       issued t i f messageId w w').
Proof.
  destruct (eventMessageId body) as [messageId|] eqn:Hid.
  - destruct (reconcile_runs now mapper body messageId w w Hid eq_refl eq_refl)
      as (fo & r & w' & w'' & E & _ & (O & L & R) & _).
    exists r, w'. split; [exact E |]. split; [exact O |]. split; [exact L |].
    destruct fo as [f|].
    + destruct R as (t & i & T & Er & I). right. split; [exact Er |].
      exists messageId, t, i, f. auto.
    + left. exact R.
  - exists (Threw TypeError), w. split; [now apply reconcile_no_id |].
    split; [reflexivity |]. split; [exists []; now rewrite app_nil_r |].
    left. unfold no_update. auto.
Qed.

(** X3.  A reconciliation that fails, for whatever reason (a body without
    a first status element, an id in both tables, an unknown status, error
    details that cannot be read), has changed no row and issued no update:
    every error is raised before the update is issued. *)
Theorem X3_failed_reconciliation_updates_nothing
    (now : Date) (mapper : WhatsAppMessageStatus.t -> GovsgMessageStatus)
    (body : JsValue) (w w' : World) (e : Exception) :
  parseTemplateMessageWebhook now mapper body w = (Threw e, w') ->
  no_update w w' /\ outbound w' = outbound w.
Proof.
  intros H.
  destruct (reconcile_run now mapper body w) as (r & w0 & E & O & _ & [N | (Er & _)]).
  - rewrite E in H. injection H as -> ->. auto.
  - rewrite E in H. injection H as -> ->. discriminate Er.
Qed.

(** X4.  A reconciliation never sends a message, and issues at most one
    update: none, or exactly one, on the row found for the message id of
    [statuses[0]] when exactly one table holds it, after which it returns
    normally. *)
Theorem X4_reconciliation_issues_at_most_one_update
    (now : Date) (mapper : WhatsAppMessageStatus.t -> GovsgMessageStatus)
    (body : JsValue) (w : World) :
  exists r w',
    parseTemplateMessageWebhook now mapper body w = (r, w') /\
    outbound w' = outbound w /\
    (updateCalls w' = updateCalls w \/
     r = Ok tt /\
     exists messageId t i f,
       eventMessageId body = Some messageId /\
       find_row messageId (table_of t w) = Some i /\
       find_row messageId (table_of (other t) w) = None /\
       updateCalls w' = updateCalls w ++ [mkUpdateCall t i f (whereOpts_of messageId)]).
Proof.
  destruct (reconcile_run now mapper body w) as (r & w' & E & O & _ & D).
  exists r, w'. split; [exact E |]. split; [exact O |].
  destruct D as [(_ & _ & U) | (Er & messageId & t & i & f & Hid & T & (_ & _ & U))].
  - left. exact U.
  - right. split; [exact Er |]. exists messageId, t, i, f.
    split; [exact Hid |]. unfold target in T.
    destruct (find_row messageId (govsgMessages w)) as [a|] eqn:Fo;
      destruct (find_row messageId (govsgMessagesTransactional w)) as [b|] eqn:Ft;
      try discriminate T; injection T as <- <-; simpl; auto.
Qed.

(** The keys of both tables survive every run. *)
Lemma reconcile_keeps_keys
    (now : Date) (mapper : WhatsAppMessageStatus.t -> GovsgMessageStatus)
    (body : JsValue) (w : World) :
  exists r w',
    parseTemplateMessageWebhook now mapper body w = (r, w') /\
    keys (govsgMessages w') = keys (govsgMessages w) /\
    keys (govsgMessagesTransactional w') = keys (govsgMessagesTransactional w) /\
    (forall messageId t,
       find_row messageId (table_of t w') = find_row messageId (table_of t w)).
Proof.
  destruct (reconcile_run now mapper body w) as (r & w' & E & _ & _ & D).
  exists r, w'. split; [exact E |].
  assert (K : keys (govsgMessages w') = keys (govsgMessages w) /\
              keys (govsgMessagesTransactional w') = keys (govsgMessagesTransactional w)).
  { destruct D as [(A & B & _) | (_ & messageId & t & i & f & _ & _ & (A & B & _))].
    - rewrite A, B. auto.
    - destruct t; simpl in A, B; rewrite A, B, keys_alter; auto. }
  destruct K as [K1 K2]. split; [exact K1 |]. split; [exact K2 |].
  intros messageId t. destruct t; simpl; apply find_row_keys; assumption.
Qed.

(** X5.  A reconciliation never changes a key: after any run both tables
    hold the same [serviceProviderMessageId]s in the same rows, so every
    lookup gives what it gave before, and an id held by at most one table
    is still held by at most one. *)
Theorem X5_reconciliation_keeps_keys
    (now : Date) (mapper : WhatsAppMessageStatus.t -> GovsgMessageStatus)
    (body : JsValue) (w : World) :
  exists r w',
    parseTemplateMessageWebhook now mapper body w = (r, w') /\
    keys (govsgMessages w') = keys (govsgMessages w) /\
    keys (govsgMessagesTransactional w') = keys (govsgMessagesTransactional w) /\
    (forall messageId t,
       find_row messageId (table_of t w') = find_row messageId (table_of t w)) /\
    (forall messageId, target w' messageId = target w messageId).
Proof.
  destruct (reconcile_keeps_keys now mapper body w) as (r & w' & E & K1 & K2 & F).
  exists r, w'. repeat (split; [assumption |]).
  intros messageId. unfold target.
  pose proof (F messageId Ordinary) as Fa. pose proof (F messageId Transactional) as Fb.
  simpl in Fa, Fb. now rewrite Fa, Fb.
Qed.

(** X6.  Delivering one status event twice, at one reading of the clock,
    leaves the tables as one delivery does, with the same result: each
    write sets a column to a value, and the second run finds the same row
    and sets the same values. *)
Theorem X6_redelivery_is_idempotent
    (now : Date) (mapper : WhatsAppMessageStatus.t -> GovsgMessageStatus)
    (body : JsValue) (w w1 w2 : World) (r1 r2 : Result unit) :
  parseTemplateMessageWebhook now mapper body w = (r1, w1) ->
  parseTemplateMessageWebhook now mapper body w1 = (r2, w2) ->
  r2 = r1 /\
  govsgMessages w2 = govsgMessages w1 /\
  govsgMessagesTransactional w2 = govsgMessagesTransactional w1.
Proof.
  intros H1 H2.
  destruct (eventMessageId body) as [messageId|] eqn:Hid.
  - destruct (reconcile_keeps_keys now mapper body w) as (r & w' & E & _ & _ & F).
    rewrite H1 in E. injection E as <- <-.
    destruct (reconcile_runs now mapper body messageId w w1 Hid
                (F messageId Ordinary) (F messageId Transactional))
      as (fo & r & wa & wb & Ea & Eb & (_ & _ & Ra) & (_ & _ & Rb)).
    rewrite H1 in Ea. injection Ea as <- <-.
    rewrite H2 in Eb. injection Eb as <- <-.
    split; [reflexivity |].
    destruct fo as [f|].
    + destruct Ra as (t & i & Ta & _ & (A1 & A2 & _)).
      destruct Rb as (t' & i' & Tb & _ & (B1 & B2 & _)).
      assert (Tab : target w1 messageId = target w messageId).
      { unfold target.
        pose proof (F messageId Ordinary) as Fa.
        pose proof (F messageId Transactional) as Fb.
        simpl in Fa, Fb. now rewrite Fa, Fb. }
      rewrite Tab, Ta in Tb. injection Tb as <- <-.
      destruct t; simpl in A1, A2, B1, B2; rewrite B1, B2, A1; rewrite ?alter_idem; auto.
    + destruct Rb as (B1 & B2 & _). auto.
  - rewrite (reconcile_no_id now mapper body w Hid) in H1. injection H1 as <- <-.
    rewrite (reconcile_no_id now mapper body w Hid) in H2. injection H2 as <- <-.
    auto.
Qed.

(** An instance of X3: an empty batch of statuses. *)
Lemma X3_failed_reconciliation_updates_nothing_witness :
  parseTemplateMessageWebhook sample_now sample_mapper empty_status_webhook sample_world
    = (Threw TypeError, sample_world) /\
  no_update sample_world sample_world /\
  outbound sample_world = outbound sample_world.
Proof.
  split; [reflexivity |].
  exact (X3_failed_reconciliation_updates_nothing sample_now sample_mapper
           empty_status_webhook sample_world sample_world TypeError eq_refl).
Defined.

(** An instance of X6: [delivered] for [m1], twice. *)
Lemma X6_redelivery_is_idempotent_witness :
  parseTemplateMessageWebhook sample_now sample_mapper
    (status_webhook "m1" "delivered") sample_world = (Ok tt, delivered_once) /\
  parseTemplateMessageWebhook sample_now sample_mapper
    (status_webhook "m1" "delivered") delivered_once
    = (Ok tt, snd (parseTemplateMessageWebhook sample_now sample_mapper
                     (status_webhook "m1" "delivered") delivered_once)) /\
  Ok tt = Ok tt /\
  govsgMessages (snd (parseTemplateMessageWebhook sample_now sample_mapper
                        (status_webhook "m1" "delivered") delivered_once))
    = govsgMessages delivered_once /\
  govsgMessagesTransactional
    (snd (parseTemplateMessageWebhook sample_now sample_mapper
            (status_webhook "m1" "delivered") delivered_once))
    = govsgMessagesTransactional delivered_once.
Proof.
  split; [reflexivity |]. split; [reflexivity |].
  exact (X6_redelivery_is_idempotent sample_now sample_mapper
           (status_webhook "m1" "delivered") sample_world delivered_once
           (snd (parseTemplateMessageWebhook sample_now sample_mapper
                   (status_webhook "m1" "delivered") delivered_once))
           (Ok tt) (Ok tt) eq_refl eq_refl).
Defined.

(** ** The decision path: what every run does *)

Lemma shouldSendAutoReply_returns
    (engine : Re.RegExp -> string -> Outcome) (body : string) (w : World) :
  exists b w', shouldSendAutoReply engine body w = (Ok b, w') /\ only_logged w w'.
Proof.
  unfold shouldSendAutoReply.
  destruct ((256 <? String.length body) || (String.length body =? 0)).
  - exists false, w. split; [reflexivity | apply only_logged_refl].
  - unfold bind, matchAnyRegex.
    destruct (matchAnyRegex_try engine (Str.toLowerCase body) suppressionPatterns)
      as [[|]|e].
    + exists false, w. split; [reflexivity | apply only_logged_refl].
    + exists true, w. split; [reflexivity | apply only_logged_refl].
    + eexists false, _. split; [reflexivity | apply only_logged_log].
Qed.

(** Every run of the decision path, whatever the body and the world. *)
Lemma decide_run
    (config_env : string) (engine : Re.RegExp -> string -> Outcome)
    (body : JsValue) (clientId : WhatsAppApiClient) (w : World) :
  exists r w',
    parseUserMessageWebhook config_env engine body clientId w = (r, w') /\
    no_update w w' /\
    (exists entries, logs w' = logs w ++ entries) /\
    (outbound w' = outbound w \/
     r = Ok tt /\
     exists whatsappId c,
       senderId body = Some whatsappId /\
       outbound w' = outbound w ++ [c] /\
       recipient_of c = whatsappId).
Proof.
  unfold parseUserMessageWebhook.
  destruct (Js.get body "contacts") as [contacts|] eqn:C1;
    [rewrite bind_orTypeError_Some | rewrite bind_orTypeError_None].
  2: { exists (Threw TypeError), w. unfold no_update. cbn. reconcile_close.
       left. reflexivity. }
  destruct (Js.first contacts) as [contact|] eqn:C2;
    [rewrite bind_orTypeError_Some | rewrite bind_orTypeError_None].
  2: { exists (Threw TypeError), w. unfold no_update. cbn. reconcile_close.
       left. reflexivity. }
  destruct (Js.get contact "wa_id") as [whatsappId|] eqn:C3;
    [rewrite bind_orTypeError_Some | rewrite bind_orTypeError_None].
  2: { exists (Threw TypeError), w. unfold no_update. cbn. reconcile_close.
       left. reflexivity. }
  assert (Hs : senderId body = Some whatsappId).
  { unfold senderId. rewrite C1. simpl. rewrite C2. simpl. exact C3. }
  repeat reconcile_step.
  all: try (eexists _, _; (split; [reflexivity |]); unfold no_update; cbn;
            reconcile_close; left; reflexivity).
  match goal with
  | |- context [shouldSendAutoReply engine ?s] =>
      destruct (shouldSendAutoReply_returns engine s w)
        as (b & w1 & E & (U1 & U2 & U3) & O1 & (entries1 & L1))
  end.
  unfold bind at 1. rewrite E. destruct b; cbn [negb].
  - rewrite log_then.
    match goal with
    | |- context [sendAutoReply config_env whatsappId clientId ?w2] =>
        destruct (sendAutoReply_run config_env whatsappId clientId w2)
          as (w3 & E3 & (V1 & V2 & V3) & L3 & O3)
    end.
    exists (Ok tt), w3. split; [exact E3 |].
    cbn [log snd govsgMessages govsgMessagesTransactional updateCalls outbound logs]
      in V1, V2, V3, L3, O3.
    split; [unfold no_update; intuition congruence |].
    split.
    + eexists. rewrite L3, L1, <- app_assoc. reflexivity.
    + right. split; [reflexivity |]. eexists whatsappId, _.
      split; [exact Hs |]. split; [rewrite O3, O1; reflexivity |].
      destruct (String.eqb config_env "development"); reflexivity.
  - exists (Ok tt), w1. split; [reflexivity |].
    split; [unfold no_update; auto |].
    split; [exists entries1; exact L1 |].
    left. exact O1.
Qed.

(** X7.  The decision path never touches a table, and makes at most one
    outbound call: none, or exactly one, after which it returns normally;
    the one call is addressed to [contacts[0].wa_id]. *)
Theorem X7_decision_sends_at_most_one_reply
    (config_env : string) (engine : Re.RegExp -> string -> Outcome)
    (body : JsValue) (clientId : WhatsAppApiClient) (w : World) :
  exists r w',
    parseUserMessageWebhook config_env engine body clientId w = (r, w') /\
    no_update w w' /\
    (outbound w' = outbound w \/
     r = Ok tt /\
     exists whatsappId c,
       senderId body = Some whatsappId /\
       outbound w' = outbound w ++ [c] /\
       recipient_of c = whatsappId).
Proof.
  destruct (decide_run config_env engine body clientId w) as (r & w' & E & U & _ & D).
  exists r, w'. auto.
Qed.

(** X8.  A message whose type is not [text] is logged and ignored: the
    call returns normally, nothing is sent, no row is touched, and its
    [text] is not even read. *)
Theorem X8_non_text_message_ignored
    (config_env : string) (engine : Re.RegExp -> string -> Outcome)
    (body : JsValue) (clientId : WhatsAppApiClient)
    (whatsappId message messageId type : JsValue) (w : World) :
  senderId body = Some whatsappId ->
  inboundMessage body = Some message ->
  Js.get message "id" = Some messageId ->
  Js.get message "type" = Some type ->
  type <> JString WhatsappWebhookMessageType_text ->
  exists w',
    parseUserMessageWebhook config_env engine body clientId w = (Ok tt, w') /\
    no_update w w' /\
    outbound w' = outbound w /\
    logs w' = logs w ++
      [mkLog Info (obj [("message", str "Received webhook for non-text message");
                        ("meta", obj [("whatsappId", whatsappId);
                                      ("messageId", messageId);
                                      ("type", type)])])].
Proof.
  intros Hs Hm Hi Ht Hn.
  apply senderId_inv in Hs as (contacts & contact & E1 & E2 & E3).
  apply inboundMessage_inv in Hm as (messages & E4 & E5).
  unfold parseUserMessageWebhook.
  rewrite E1, bind_orTypeError_Some, E2, bind_orTypeError_Some,
    E3, bind_orTypeError_Some, E4, bind_orTypeError_Some, E5, bind_orTypeError_Some,
    Hi, bind_orTypeError_Some, Ht, bind_orTypeError_Some.
  assert (T : match type with
              | JString t => String.eqb t WhatsappWebhookMessageType_text
              | _ => false
              end = false).
  { destruct type as [| | | |t| |]; try reflexivity.
    apply String.eqb_neq. intros ->. now apply Hn. }
  rewrite T. cbn [negb].
  eexists. split; [reflexivity |]. unfold no_update. cbn. auto.
Qed.

(** An instance of X8: an image. *)
Lemma X8_non_text_message_ignored_witness :
  senderId image_webhook = Some (JString "6591234567") /\
  inboundMessage image_webhook
    = Some (JObject [("id", JString "wamid.2"); ("type", JString "image")]) /\
  Js.get (JObject [("id", JString "wamid.2"); ("type", JString "image")]) "id"
    = Some (JString "wamid.2") /\
  Js.get (JObject [("id", JString "wamid.2"); ("type", JString "image")]) "type"
    = Some (JString "image") /\
  JString "image" <> JString WhatsappWebhookMessageType_text /\
  exists w',
    parseUserMessageWebhook "production" RegExp_prototype_test image_webhook "clientA"
      sample_world = (Ok tt, w') /\
    no_update sample_world w' /\
    outbound w' = outbound sample_world /\
    logs w' = logs sample_world ++
      [mkLog Info (obj [("message", str "Received webhook for non-text message");
                        ("meta", obj [("whatsappId", JString "6591234567");
                                      ("messageId", JString "wamid.2");
                                      ("type", JString "image")])])].
Proof.
  assert (N : JString "image" <> JString WhatsappWebhookMessageType_text)
    by discriminate.
  repeat (split; [reflexivity |]). split; [exact N |].
  exact (X8_non_text_message_ignored "production" RegExp_prototype_test image_webhook
           "clientA" (JString "6591234567")
           (JObject [("id", JString "wamid.2"); ("type", JString "image")])
           (JString "wamid.2") (JString "image") sample_world
           eq_refl eq_refl eq_refl eq_refl N).
Defined.

(** X9.  A text message whose sanitised body is empty, longer than 256
    code units, or an automated notice gets no reply: the call returns
    normally, nothing is sent, no row is touched. *)
Theorem X9_suppressed_message_gets_no_reply
    (config_env : string) (engine : Re.RegExp -> string -> Outcome)
    (body : JsValue) (clientId : WhatsAppApiClient)
    (whatsappId : JsValue) (raw : string) (w : World) :
  faithful engine ->
  senderId body = Some whatsappId ->
  inboundText body = Some raw ->
  String.length (sanitise raw) = 0 \/
  256 < String.length (sanitise raw) \/
  automated_notice (Str.toLowerCase (sanitise raw)) ->
  exists w',
    parseUserMessageWebhook config_env engine body clientId w = (Ok tt, w') /\
    no_update w w' /\
    outbound w' = outbound w.
Proof.
  intros F Hs Ht Hsup.
  assert (Hi : exists messageId, inboundMessageId body = Some messageId).
  { destruct (inboundText_inv _ _ Ht) as (message & text & Em & E4 & _).
    unfold inboundMessageId. rewrite Em. simpl.
    exact (Js_get_defined _ _ _ "id" E4). }
  destruct Hi as (messageId & Hi).
  rewrite (parseUserMessageWebhook_text config_env engine body clientId
             whatsappId messageId raw Hs Hi Ht).
  destruct (shouldSendAutoReply_spec engine (sanitise raw) w F)
    as (b & w1 & E & (U1 & O1 & _) & Hb).
  assert (b = false) as ->.
  { destruct b; [|reflexivity]. exfalso.
    destruct Hb as [Hb _]. destruct (Hb eq_refl) as ([L1 L2] & N & _).
    destruct Hsup as [H|[H|H]]; [lia | lia | exact (N H)]. }
  unfold bind at 1. rewrite E. cbn [negb].
  exists w1. split; [reflexivity |]. auto.
Qed.

(** An instance of X9: a body of brackets only, which sanitises to the
    empty string. *)
Lemma X9_suppressed_message_gets_no_reply_witness :
  faithful RegExp_prototype_test /\
  senderId (message_webhook "(*)<>[]") = Some (JString "6591234567") /\
  inboundText (message_webhook "(*)<>[]") = Some "(*)<>[]" /\
  (String.length (sanitise "(*)<>[]") = 0 \/
   256 < String.length (sanitise "(*)<>[]") \/
   automated_notice (Str.toLowerCase (sanitise "(*)<>[]"))) /\
  exists w',
    parseUserMessageWebhook "production" RegExp_prototype_test
      (message_webhook "(*)<>[]") "clientA" sample_world = (Ok tt, w') /\
    no_update sample_world w' /\
    outbound w' = outbound sample_world.
Proof.
  assert (F : faithful RegExp_prototype_test).
  { intros r s b H. injection H as <-. reflexivity. }
  assert (S : String.length (sanitise "(*)<>[]") = 0 \/
              256 < String.length (sanitise "(*)<>[]") \/
              automated_notice (Str.toLowerCase (sanitise "(*)<>[]")))
    by (left; reflexivity).
  split; [exact F |]. split; [reflexivity |]. split; [reflexivity |].
  split; [exact S |].
  exact (X9_suppressed_message_gets_no_reply "production" RegExp_prototype_test
           (message_webhook "(*)<>[]") "clientA" (JString "6591234567") "(*)<>[]"
           sample_world F eq_refl eq_refl S).
Defined.

(** X10.  A text message whose [text.body] is missing or is not a string
    fails with a [TypeError] (from reading the body, or from the string
    check of the sanitiser); nothing is sent, logged or written. *)
Theorem X10_text_without_string_body_fails
    (config_env : string) (engine : Re.RegExp -> string -> Outcome)
    (body : JsValue) (clientId : WhatsAppApiClient)
    (whatsappId message : JsValue) (w : World) :
  senderId body = Some whatsappId ->
  inboundMessage body = Some message ->
  Js.get message "type" = Some (JString WhatsappWebhookMessageType_text) ->
  (forall raw,
     (Js.get message "text" ≫= fun t => Js.get t "body") <> Some (JString raw)) ->
  parseUserMessageWebhook config_env engine body clientId w = (Threw TypeError, w).
Proof.
  intros Hs Hm Ht Hn.
  apply senderId_inv in Hs as (contacts & contact & E1 & E2 & E3).
  apply inboundMessage_inv in Hm as (messages & E4 & E5).
  destruct (Js_get_defined _ _ _ "id" Ht) as (messageId & Hi).
  unfold parseUserMessageWebhook.
  rewrite E1, bind_orTypeError_Some, E2, bind_orTypeError_Some,
    E3, bind_orTypeError_Some, E4, bind_orTypeError_Some, E5, bind_orTypeError_Some,
    Hi, bind_orTypeError_Some, Ht, bind_orTypeError_Some.
  unfold WhatsappWebhookMessageType_text at 1. rewrite String.eqb_refl. cbn [negb].
  destruct (Js.get message "text") as [text|]; [|reflexivity].
  rewrite bind_orTypeError_Some. simpl in Hn.
  destruct (Js.get text "body") as [b|]; [|reflexivity].
  rewrite bind_orTypeError_Some.
  destruct b as [| | | |raw| |]; try reflexivity.
  exfalso. exact (Hn raw eq_refl).
Qed.

(** An instance of X10: a text message with an empty [text] object. *)
Lemma X10_text_without_string_body_fails_witness :
  senderId bodiless_webhook = Some (JString "6591234567") /\
  inboundMessage bodiless_webhook
    = Some (JObject [("id", JString "wamid.3"); ("type", JString "text");
                     ("text", JObject [])]) /\
  Js.get (JObject [("id", JString "wamid.3"); ("type", JString "text");
                   ("text", JObject [])]) "type"
    = Some (JString WhatsappWebhookMessageType_text) /\
  (forall raw,
     (Js.get (JObject [("id", JString "wamid.3"); ("type", JString "text");
                       ("text", JObject [])]) "text" ≫= fun t => Js.get t "body")
     <> Some (JString raw)) /\
  parseUserMessageWebhook "production" RegExp_prototype_test bodiless_webhook "clientA"
    sample_world = (Threw TypeError, sample_world).
Proof.
  assert (N : forall raw,
             (Js.get (JObject [("id", JString "wamid.3"); ("type", JString "text");
                               ("text", JObject [])]) "text"
                ≫= fun t => Js.get t "body") <> Some (JString raw))
    by (intros raw; discriminate).
  repeat (split; [reflexivity |]). split; [exact N |].
  exact (X10_text_without_string_body_fails "production" RegExp_prototype_test
           bodiless_webhook "clientA" (JString "6591234567")
           (JObject [("id", JString "wamid.3"); ("type", JString "text");
                     ("text", JObject [])])
           sample_world eq_refl eq_refl eq_refl N).
Defined.

(** ** The classifier: what every call does *)

(** X11.  A body that passes for a status webhook (it has the key
    [statuses]) but has no first status element to read an id from, such
    as an empty batch, fails with a [TypeError], not with the error kept
    for unexpected bodies; no row is touched and nothing is sent. *)
Theorem X11_status_webhook_without_event_fails
    (config_env : string) (now : Date)
    (mapper : WhatsAppMessageStatus.t -> GovsgMessageStatus)
    (engine : Re.RegExp -> string -> Outcome)
    (body : JsValue) (clientId : WhatsAppApiClient) (w : World) :
  Js.has "statuses" body = true ->
  eventMessageId body = None ->
  exists w',
    parseWebhook config_env now mapper engine body clientId w = (Threw TypeError, w') /\
    only_logged w w'.
Proof.
  intros Hh Hid. unfold parseWebhook. rewrite log_then.
  destruct body as [| | | | | |props]; try discriminate Hh.
  cbn [Js.truthy Js.typeof_object negb orb]. rewrite Hh, log_then.
  rewrite (reconcile_no_id now mapper _ _ Hid).
  eexists. split; [reflexivity | apply only_logged_log2].
Qed.

(** An instance of X11: an empty batch. *)
Lemma X11_status_webhook_without_event_fails_witness :
  Js.has "statuses" empty_status_webhook = true /\
  eventMessageId empty_status_webhook = None /\
  exists w',
    parseWebhook "production" sample_now sample_mapper RegExp_prototype_test
      empty_status_webhook "clientA" sample_world = (Threw TypeError, w') /\
    only_logged sample_world w'.
Proof.
  split; [reflexivity |]. split; [reflexivity |].
  exact (X11_status_webhook_without_event_fails "production" sample_now sample_mapper
           RegExp_prototype_test empty_status_webhook "clientA" sample_world
           eq_refl eq_refl).
Defined.

(** X12.  Every call of [parseWebhook] logs the receipt first and then
    has at most one effect besides logging: it issues one update, or makes
    one outbound call, or neither, and never both. *)
Theorem X12_one_effect_per_webhook
    (config_env : string) (now : Date)
    (mapper : WhatsAppMessageStatus.t -> GovsgMessageStatus)
    (engine : Re.RegExp -> string -> Outcome)
    (body : JsValue) (clientId : WhatsAppApiClient) (w : World) :
  exists r w',
    parseWebhook config_env now mapper engine body clientId w = (r, w') /\
    (exists entries, logs w' = logs w ++ receipt_entry :: entries) /\
    ((no_update w w' /\ outbound w' = outbound w) \/
     (outbound w' = outbound w /\
      exists c, updateCalls w' = updateCalls w ++ [c]) \/
     (no_update w w' /\ exists c, outbound w' = outbound w ++ [c])).
Proof.
  unfold parseWebhook. rewrite log_then.
  set (w0 := snd (log Info
                    (obj [("message", str "Received webhook from WhatsApp");
                          ("action", str "parseWebhook")]) w)).
  assert (W0 : govsgMessages w0 = govsgMessages w /\
               govsgMessagesTransactional w0 = govsgMessagesTransactional w /\
               updateCalls w0 = updateCalls w /\ outbound w0 = outbound w /\
               logs w0 = logs w ++ [receipt_entry]) by (cbn; auto).
  destruct W0 as (A & B & C & D & L).
  assert (Fail : forall l e x,
             exists r w',
               (log l e ;; @throw unit x) w0 = (r, w') /\
               (exists entries, logs w' = logs w ++ receipt_entry :: entries) /\
               ((no_update w w' /\ outbound w' = outbound w) \/
                (outbound w' = outbound w /\
                 exists c, updateCalls w' = updateCalls w ++ [c]) \/
                (no_update w w' /\ exists c, outbound w' = outbound w ++ [c]))).
  { intros l e x. eexists _, _. split; [reflexivity |]. split.
    - eexists. cbn. rewrite <- app_assoc. reflexivity.
    - left. unfold no_update. cbn. auto. }
  destruct (negb (Js.truthy body) || negb (Js.typeof_object body)); [apply Fail |].
  destruct (Js.has "statuses" body); [| destruct (Js.has "messages" body && Js.has "contacts" body); [|apply Fail]];
    clear Fail A B C D L; subst w0.
  - rewrite log_then.
    match goal with
    | |- context [parseTemplateMessageWebhook now mapper body ?w1] =>
        destruct (reconcile_run now mapper body w1)
          as (r & w' & E & O & (entries & Lg) & Dd)
    end.
    cbn [log snd outbound logs] in O, Lg.
    exists r, w'. split; [exact E |]. split.
    + eexists. rewrite Lg, <- !app_assoc. reflexivity.
    + destruct Dd as [(N1 & N2 & N3) | (_ & messageId & t & i & f & _ & _ & (_ & _ & U))].
      * left. unfold no_update. cbn in N1, N2, N3. auto.
      * right. left. cbn in U. eauto.
  - rewrite log_then.
    match goal with
    | |- context [parseUserMessageWebhook config_env engine body clientId ?w1] =>
        destruct (decide_run config_env engine body clientId w1)
          as (r & w' & E & (N1 & N2 & N3) & (entries & Lg) & Dd)
    end.
    cbn [log snd outbound logs govsgMessages govsgMessagesTransactional updateCalls]
      in N1, N2, N3, Lg, Dd.
    exists r, w'. split; [exact E |]. split.
    + eexists. rewrite Lg, <- !app_assoc. reflexivity.
    + destruct Dd as [O | (_ & whatsappId & c & _ & O & _)].
      * left. unfold no_update. auto.
      * right. right. unfold no_update. eauto.
Qed.

Lemma decide_no_event
    (config_env : string) (engine : Re.RegExp -> string -> Outcome)
    (body : JsValue) (clientId : WhatsAppApiClient) (w : World) :
  senderId body = None \/ inboundMessageId body = None ->
  parseUserMessageWebhook config_env engine body clientId w = (Threw TypeError, w).
Proof.
  unfold senderId, inboundMessageId, inboundMessage, parseUserMessageWebhook. intros H.
  destruct (Js.get body "contacts") as [contacts|]; [|reflexivity].
  rewrite bind_orTypeError_Some. simpl in H.
  destruct (Js.first contacts) as [contact|]; [|reflexivity].
  rewrite bind_orTypeError_Some. simpl in H.
  destruct (Js.get contact "wa_id") as [whatsappId|]; [|reflexivity].
  rewrite bind_orTypeError_Some.
  destruct (Js.get body "messages") as [messages|]; [|reflexivity].
  rewrite bind_orTypeError_Some. simpl in H.
  destruct (Js.first messages) as [message|]; [|reflexivity].
  rewrite bind_orTypeError_Some. simpl in H.
  destruct (Js.get message "id") as [messageId|]; [|reflexivity].
  destruct H; discriminate.
Qed.

(** X13.  A body that passes for a message webhook (it has the keys
    [messages] and [contacts], and not [statuses]) but has no first
    contact or no first message to read, such as an empty array, fails
    with a [TypeError]; nothing is sent and no row is touched. *)
Theorem X13_message_webhook_without_event_fails
    (config_env : string) (now : Date)
    (mapper : WhatsAppMessageStatus.t -> GovsgMessageStatus)
    (engine : Re.RegExp -> string -> Outcome)
    (body : JsValue) (clientId : WhatsAppApiClient) (w : World) :
  Js.has "statuses" body = false ->
  Js.has "messages" body = true ->
  Js.has "contacts" body = true ->
  senderId body = None \/ inboundMessageId body = None ->
  exists w',
    parseWebhook config_env now mapper engine body clientId w = (Threw TypeError, w') /\
    only_logged w w'.
Proof.
  intros Hs Hm Hc Hn. unfold parseWebhook. rewrite log_then.
  destruct body as [| | | | | |props]; try discriminate Hm.
  cbn [Js.truthy Js.typeof_object negb orb]. rewrite Hs, Hm, Hc. cbn [andb].
  rewrite log_then, (decide_no_event config_env engine _ clientId _ Hn).
  eexists. split; [reflexivity | apply only_logged_log2].
Qed.

(** An instance of X13: no contact. *)
Lemma X13_message_webhook_without_event_fails_witness :
  Js.has "statuses" (JObject [("messages", JArray [JObject [("id", JString "wamid.4")]]);
                              ("contacts", JArray [])]) = false /\
  Js.has "messages" (JObject [("messages", JArray [JObject [("id", JString "wamid.4")]]);
                              ("contacts", JArray [])]) = true /\
  Js.has "contacts" (JObject [("messages", JArray [JObject [("id", JString "wamid.4")]]);
                              ("contacts", JArray [])]) = true /\
  (senderId (JObject [("messages", JArray [JObject [("id", JString "wamid.4")]]);
                      ("contacts", JArray [])]) = None \/
   inboundMessageId (JObject [("messages", JArray [JObject [("id", JString "wamid.4")]]);
                              ("contacts", JArray [])]) = None) /\
  exists w',
    parseWebhook "production" sample_now sample_mapper RegExp_prototype_test
      (JObject [("messages", JArray [JObject [("id", JString "wamid.4")]]);
                ("contacts", JArray [])]) "clientA" sample_world
      = (Threw TypeError, w') /\
    only_logged sample_world w'.
Proof.
  assert (N : senderId (JObject [("messages", JArray [JObject [("id", JString "wamid.4")]]);
                                 ("contacts", JArray [])]) = None \/
              inboundMessageId
                (JObject [("messages", JArray [JObject [("id", JString "wamid.4")]]);
                          ("contacts", JArray [])]) = None)
    by (left; reflexivity).
  repeat (split; [reflexivity |]). split; [exact N |].
  exact (X13_message_webhook_without_event_fails "production" sample_now sample_mapper
           RegExp_prototype_test
           (JObject [("messages", JArray [JObject [("id", JString "wamid.4")]]);
                     ("contacts", JArray [])]) "clientA" sample_world
           eq_refl eq_refl eq_refl N).
Defined.

(** ** The suppression predicate, further *)

Lemma Str_contains_extend (x l pre post : string) :
  Str.contains x l -> Str.contains x (pre +:+ l +:+ post).
Proof.
  intros (a & b & ->). exists (pre +:+ a), (b +:+ post).
  now rewrite !Str_app_assoc.
Qed.

Lemma automated_notice_extend (l pre post : string) :
  automated_notice l -> automated_notice (pre +:+ l +:+ post).
Proof.
  unfold automated_notice.
  intros [(c & Hc & H)|[H|[H|[H|[(c & d & Hc & Hd & H)|H]]]]].
  - left. exists c. split; [exact Hc |]. now apply Str_contains_extend.
  - right. left. now apply Str_contains_extend.
  - right. right. left. now apply Str_contains_extend.
  - right. right. right. left. now apply Str_contains_extend.
  - right. right. right. right. left. exists c, d.
    split; [exact Hc |]. split; [exact Hd |]. now apply Str_contains_extend.
  - right. right. right. right. right. now apply Str_contains_extend.
Qed.

(** X15.  Adding text around a suppressed body never earns a reply: if a
    body that is not empty is refused, so is every body that contains
    it. *)
Theorem X15_suppression_survives_extension
    (body pre post : string) (w w' : World) :
  body <> "" ->
  shouldSendAutoReply RegExp_prototype_test body w = (Ok false, w) ->
  shouldSendAutoReply RegExp_prototype_test (pre +:+ body +:+ post) w' = (Ok false, w').
Proof.
  intros Hne H.
  destruct (shouldSendAutoReply_run_time body w) as (b & E & Hb).
  rewrite H in E. injection E as <-.
  destruct (shouldSendAutoReply_run_time (pre +:+ body +:+ post) w') as (b' & E' & Hb').
  destruct b'; [|exact E']. exfalso.
  destruct Hb' as [Hb' _]. destruct (Hb' eq_refl) as ([L1 L2] & N).
  rewrite !Str_length_app in L2.
  assert (false = true); [|discriminate].
  apply Hb. split.
  - destruct body; [contradiction | simpl in L2 |- *; lia].
  - intros A. apply N. rewrite !Str_toLowerCase_app. now apply automated_notice_extend.
Qed.

(** An instance of X15. *)
Lemma X15_suppression_survives_extension_witness :
  "thanks" <> "" /\
  shouldSendAutoReply RegExp_prototype_test "thanks" emptyWorld = (Ok false, emptyWorld) /\
  shouldSendAutoReply RegExp_prototype_test ("Many " +:+ "thanks" +:+ " to you") sample_world
    = (Ok false, sample_world).
Proof.
  assert (N : "thanks" <> "") by discriminate.
  split; [exact N |]. split; [vm_compute; reflexivity |].
  exact (X15_suppression_survives_extension "thanks" "Many " " to you"
           emptyWorld sample_world N eq_refl).
Defined.

Lemma matchAnyRegex_try_app
    (engine : Re.RegExp -> string -> Outcome) (input : string)
    (pre rest : list Re.RegExp) :
  (forall p, In p pre -> engine p input = Returns false) ->
  matchAnyRegex_try engine input (pre ++ rest) = matchAnyRegex_try engine input rest.
Proof.
  induction pre as [|p pre IH]; intros H; [reflexivity |].
  simpl. rewrite (H p (or_introl eq_refl)). apply IH.
  intros q Hq. apply H. now right.
Qed.

(** X16.  [matchAnyRegex] always returns, whatever the validations do.
    It answers [false] exactly when every validation answered [false];
    the first validation that does not answer [false] decides: if it
    matches, the answer is [true] and nothing is logged; if it throws, the
    answer is [true] too and the error is logged once.  Validations after
    it are not consulted. *)
Theorem X16_first_decisive_validation_wins
    (engine : Re.RegExp -> string -> Outcome) (input : string)
    (validations : list Re.RegExp) (w : World) :
  exists b w',
    matchAnyRegex engine input validations w = (Ok b, w') /\
    (b = false <-> forall r, In r validations -> engine r input = Returns false) /\
    (b = false -> w' = w) /\
    (forall pre r post,
       validations = pre ++ r :: post ->
       (forall p, In p pre -> engine p input = Returns false) ->
       (engine r input = Returns true -> b = true /\ w' = w) /\
       (forall e, engine r input = Throws e ->
          b = true /\
          w' = snd (log Err (obj [("errorTitle", str "Error validating user input");
                                  ("error", e)]) w))).
Proof.
  unfold matchAnyRegex.
  destruct (matchAnyRegex_try engine input validations) as [[|]|e] eqn:T.
  - exists true, w. split; [reflexivity |]. split; [|split].
    + split; [discriminate |]. intros H.
      apply matchAnyRegex_try_true in T as (r & Hr & Er).
      rewrite (H r Hr) in Er. discriminate.
    + discriminate.
    + intros pre r post -> Hpre. rewrite (matchAnyRegex_try_app _ _ _ _ Hpre) in T.
      simpl in T. split.
      * auto.
      * intros e Er. rewrite Er in T. discriminate.
  - exists false, w. split; [reflexivity |]. split; [|split].
    + split; [|reflexivity]. intros _. exact (matchAnyRegex_try_false _ _ _ T).
    + reflexivity.
    + intros pre r post -> Hpre. rewrite (matchAnyRegex_try_app _ _ _ _ Hpre) in T.
      simpl in T. split.
      * intros Er. rewrite Er in T. discriminate.
      * intros e Er. rewrite Er in T. discriminate.
  - eexists true, _. split; [reflexivity |]. split; [|split].
    + split; [discriminate |]. intros H.
      apply matchAnyRegex_try_throws in T as (r & Hr & Er).
      rewrite (H r Hr) in Er. discriminate.
    + discriminate.
    + intros pre r post -> Hpre. rewrite (matchAnyRegex_try_app _ _ _ _ Hpre) in T.
      simpl in T. split.
      * intros Er. rewrite Er in T. discriminate.
      * intros e' Er. rewrite Er in T. injection T as ->. auto.
Qed.

(** ** Sanitisation, further *)

Lemma Str_filter_idem (keep : ascii -> bool) (s : string) :
  Str.filter keep (Str.filter keep s) = Str.filter keep s.
Proof.
  induction s as [|c s IH]; simpl; [reflexivity |].
  destruct (keep c) eqn:K; simpl; [rewrite K, IH; reflexivity | exact IH].
Qed.

Lemma Str_filter_length (keep : ascii -> bool) (s : string) :
  String.length (Str.filter keep s) <= String.length s.
Proof.
  induction s as [|c s IH]; simpl; [lia |].
  destruct (keep c); simpl; lia.
Qed.

Lemma Str_filter_app (keep : ascii -> bool) (a b : string) :
  Str.filter keep (a +:+ b) = Str.filter keep a +:+ Str.filter keep b.
Proof.
  induction a as [|c a IH]; simpl; [reflexivity |].
  destruct (keep c); simpl; now rewrite IH.
Qed.

Lemma Str_filter_fixed (keep : ascii -> bool) (s : string) :
  Str.filter keep s = s <-> Str_forallb keep s = true.
Proof.
  induction s as [|c s IH]; simpl; [tauto |].
  destruct (keep c) eqn:K; simpl.
  - rewrite <- IH. split; [intros H; now injection H | intros ->; reflexivity].
  - split; [|discriminate]. intros H. exfalso.
    pose proof (Str_filter_length keep s) as L.
    rewrite H in L. simpl in L. lia.
Qed.

(** X17.  Sanitising is a projection: a sanitised body sanitises to
    itself, is never longer than the raw body, and is the raw body exactly
    when that holds none of the nine characters; the sanitised form of a
    text is the sanitised forms of its parts, joined.  Only a string can
    be sanitised. *)
Theorem X17_sanitising_is_a_projection (raw : string) :
  exists s,
    validator_blacklist (JString raw) blacklisted = Some s /\
    validator_blacklist (JString s) blacklisted = Some s /\
    String.length s <= String.length raw /\
    (s = raw <-> Str_forallb (fun c => negb (blacklisted_char c)) raw = true) /\
    (forall a b,
       raw = a +:+ b ->
       exists sa sb,
         validator_blacklist (JString a) blacklisted = Some sa /\
         validator_blacklist (JString b) blacklisted = Some sb /\
         s = sa +:+ sb) /\
    (forall v, (forall t, v <> JString t) -> validator_blacklist v blacklisted = None).
Proof.
  exists (sanitise raw). rewrite !validator_blacklist_sanitise.
  split; [reflexivity |]. split; [|split; [|split; [|split]]].
  - unfold sanitise. now rewrite Str_filter_idem.
  - apply Str_filter_length.
  - apply Str_filter_fixed.
  - intros a b ->. exists (sanitise a), (sanitise b).
    rewrite !validator_blacklist_sanitise. split; [reflexivity |].
    split; [reflexivity |]. apply Str_filter_app.
  - intros v Hv. destruct v; try reflexivity. exfalso. exact (Hv s eq_refl).
Qed.

(** ** Reconciliation: details and sequences *)

(** The run for one of the four plain statuses. *)
Lemma status_update_run
    (now : Date) (mapper : WhatsAppMessageStatus.t -> GovsgMessageStatus)
    (body messageId : JsValue) (m : WhatsAppMessageStatus.t)
    (t : Table) (i : nat) (w : World) :
  In m [WhatsAppMessageStatus.sent; WhatsAppMessageStatus.delivered;
        WhatsAppMessageStatus.read; WhatsAppMessageStatus.deleted] ->
  eventMessageId body = Some messageId ->
  eventStatus body = Some (JString (WhatsAppMessageStatus.value m)) ->
  find_row messageId (table_of t w) = Some i ->
  find_row messageId (table_of (other t) w) = None ->
  exists r f w',
    table_of t w !! i = Some r /\
    messageId = JString (serviceProviderMessageId r) /\
    parseTemplateMessageWebhook now mapper body w = (Ok tt, w') /\
    one_update t i (stamped now (mapper m) m r) f messageId [] w w' /\
    (forall x, apply_fields f x = stamped now (mapper m) m x).
Proof.
  intros Hm Hid Hst Fi Fn.
  apply eventMessageId_inv in Hid as (e & He & E3).
  unfold eventStatus in Hst. rewrite He in Hst. simpl in Hst.
  apply statusEvent_inv in He as (statuses & E1 & E2).
  destruct (find_row_lookup _ _ _ Fi) as (r & L & K).
  exists r.
  assert (S : switch_status (JString (WhatsAppMessageStatus.value m)) = Some m)
    by apply switch_status_value.
  simpl in Hm.
  destruct t; simpl in Fi, Fn;
    [ reconcile_lookups E1 E2 E3 Fi Fn | reconcile_lookups E1 E2 E3 Fn Fi ];
    rewrite Hst, bind_orTypeError_Some, S;
    destruct Hm as [<-|[<-|[<-|[<-|[]]]]];
    match goal with
    | |- context [update_both _ _ ?f _ w] =>
        match goal with
        | |- context [update_both (Some i) None] =>
            destruct (update_run Ordinary i r f messageId w L) as (w' & E & U)
        | |- context [update_both None (Some i)] =>
            destruct (update_run Transactional i r f messageId w L) as (w' & E & U)
        end;
        exists f, w'; repeat split; try assumption; try apply U
    end.
Qed.

(** The run for a failure with error details. *)
Lemma failed_details_run
    (now : Date) (mapper : WhatsAppMessageStatus.t -> GovsgMessageStatus)
    (body messageId error0 code title details href : JsValue) (rest : list JsValue)
    (errorCode title_s details_s href_s : string)
    (t : Table) (i : nat) (w : World) :
  eventMessageId body = Some messageId ->
  eventStatus body = Some (JString (WhatsAppMessageStatus.value WhatsAppMessageStatus.failed)) ->
  bodyErrors body = Some (JArray (error0 :: rest)) ->
  Js.get error0 "code" = Some code ->
  Js.get error0 "title" = Some title ->
  Js.get error0 "details" = Some details ->
  Js.get error0 "href" = Some href ->
  Js.within code = true ->
  Js.within title = true ->
  Js.within details = true ->
  Js.within href = true ->
  Js.toString_method code = Some errorCode ->
  Js.to_string title = Some title_s ->
  Js.to_string details = Some details_s ->
  Js.to_string href = Some href_s ->
  find_row messageId (table_of t w) = Some i ->
  find_row messageId (table_of (other t) w) = None ->
  exists r f w',
    table_of t w !! i = Some r /\
    messageId = JString (serviceProviderMessageId r) /\
    parseTemplateMessageWebhook now mapper body w = (Ok tt, w') /\
    one_update t i
      (errored now (mapper WhatsAppMessageStatus.failed) errorCode
         (title_s +:+ " Details: " +:+ details_s +:+ " href: " +:+ href_s) r)
      f messageId
      [mkLog Info (obj [("message", str "Received webhook with error status")])] w w' /\
    (forall x,
       apply_fields f x =
       errored now (mapper WhatsAppMessageStatus.failed) errorCode
         (title_s +:+ " Details: " +:+ details_s +:+ " href: " +:+ href_s) x).
Proof.
  intros Hid Hst Herr Hc Ht Hd Hh _ _ _ _ Sc St Sd Sh Fi Fn.
  apply eventMessageId_inv in Hid as (e & He & E3).
  unfold eventStatus in Hst. rewrite He in Hst. simpl in Hst.
  apply statusEvent_inv in He as (statuses & E1 & E2).
  destruct (find_row_lookup _ _ _ Fi) as (r & L & K).
  unfold bodyErrors in Herr.
  exists r.
  assert (Sw : switch_status (JString "failed") = Some WhatsAppMessageStatus.failed)
    by reflexivity.
  destruct t; simpl in Fi, Fn;
    [ reconcile_lookups E1 E2 E3 Fi Fn | reconcile_lookups E1 E2 E3 Fn Fi ];
    rewrite Hst, bind_orTypeError_Some, Sw;
    unfold bind at 1; cbn [log];
    rewrite Herr, bind_orTypeError_Some;
    cbn [Js.truthy negb Js.get String.eqb Ascii.eqb Bool.eqb orTypeError];
    rewrite !bind_ret;
    cbn [length Z.of_nat Z.eqb Js.first];
    rewrite bind_orTypeError_Some, Hc, bind_orTypeError_Some, Ht, bind_orTypeError_Some,
      Hd, bind_orTypeError_Some, Hh, bind_orTypeError_Some, Sc, bind_orTypeError_Some,
      St, bind_orTypeError_Some, Sd, bind_orTypeError_Some, Sh, bind_orTypeError_Some;
    change (Z.of_nat (S (length rest)) =? 0)%Z with false; cbv iota;
    match goal with
    | |- context [update_both _ _ ?f _ ?w1] =>
        match goal with
        | |- context [update_both (Some i) None] =>
            destruct (update_run Ordinary i r f messageId w1 L) as (w' & E & U)
        | |- context [update_both None (Some i)] =>
            destruct (update_run Transactional i r f messageId w1 L) as (w' & E & U)
        end;
        exists f, w'; repeat split; try assumption;
        try (apply (one_update_after_log _ _ _ _ _ _ _ _ _ U))
    end.
Qed.

(** X18.  Error details that lack [details] and [href] are recorded all
    the same: the missing fields read as [undefined], and that word is
    what the description stores for them.  The code, a safe integer, is
    stored in decimal. *)
Theorem X18_missing_error_fields_read_undefined
    (now : Date) (mapper : WhatsAppMessageStatus.t -> GovsgMessageStatus)
    (body messageId : JsValue) (props : list (string * JsValue)) (rest : list JsValue)
    (code : Z) (title : string) (t : Table) (i : nat) (w : World) :
  eventMessageId body = Some messageId ->
  eventStatus body = Some (JString "failed") ->
  bodyErrors body = Some (JArray (JObject props :: rest)) ->
  Js.lookup "code" props = Some (JNumber code) ->
  Js.safe_integer code = true ->
  Js.lookup "title" props = Some (JString title) ->
  Js.lookup "details" props = None ->
  Js.lookup "href" props = None ->
  find_row messageId (table_of t w) = Some i ->
  find_row messageId (table_of (other t) w) = None ->
  exists r f w',
    table_of t w !! i = Some r /\
    parseTemplateMessageWebhook now mapper body w = (Ok tt, w') /\
    one_update t i
      (errored now (mapper WhatsAppMessageStatus.failed) (Js.string_of_Z code)
         (title +:+ " Details: undefined href: undefined") r)
      f messageId [error_status_entry] w w'.
Proof.
  intros Hid Hst Herr Hc Hsafe Ht Hd Hh Fi Fn.
  destruct (failed_details_run now mapper body messageId (JObject props)
              (JNumber code) (JString title) JUndefined JUndefined rest
              (Js.string_of_Z code) title "undefined" "undefined" t i w)
    as (r & f & w' & L & _ & E & U & _); try assumption; try reflexivity.
  - simpl. now rewrite Hc.
  - simpl. now rewrite Ht.
  - simpl. now rewrite Hd.
  - simpl. now rewrite Hh.
  - exists r, f, w'. auto.
Qed.

(** An instance of X18: error 470 with a title only. *)
Lemma X18_missing_error_fields_read_undefined_witness :
  eventMessageId failed_webhook_terse = Some (JString "m1") /\
  eventStatus failed_webhook_terse = Some (JString "failed") /\
  bodyErrors failed_webhook_terse
    = Some (JArray [JObject [("code", JNumber 470);
                             ("title", JString "Message failed to send")]]) /\
  Js.lookup "code" [("code", JNumber 470); ("title", JString "Message failed to send")]
    = Some (JNumber 470) /\
  Js.safe_integer 470 = true /\
  Js.lookup "title" [("code", JNumber 470); ("title", JString "Message failed to send")]
    = Some (JString "Message failed to send") /\
  Js.lookup "details" [("code", JNumber 470); ("title", JString "Message failed to send")]
    = None /\
  Js.lookup "href" [("code", JNumber 470); ("title", JString "Message failed to send")]
    = None /\
  find_row (JString "m1") (table_of Ordinary sample_world) = Some 1 /\
  find_row (JString "m1") (table_of (other Ordinary) sample_world) = None /\
  exists r f w',
    table_of Ordinary sample_world !! 1 = Some r /\
    parseTemplateMessageWebhook sample_now sample_mapper failed_webhook_terse sample_world
      = (Ok tt, w') /\
    one_update Ordinary 1
      (errored sample_now "FAILED" "470"
         "Message failed to send Details: undefined href: undefined" r)
      f (JString "m1") [error_status_entry] sample_world w'.
Proof.
  repeat (split; [reflexivity |]).
  exact (X18_missing_error_fields_read_undefined sample_now sample_mapper
           failed_webhook_terse (JString "m1")
           [("code", JNumber 470); ("title", JString "Message failed to send")] []
           470%Z "Message failed to send" Ordinary 1 sample_world
           eq_refl eq_refl eq_refl eq_refl eq_refl eq_refl eq_refl eq_refl eq_refl
           eq_refl).
Defined.

(** X19.  Two status events for one message, each with one of the four
    plain statuses, processed one after the other: the row ends with the
    status and the time stamp of the second, and keeps the time stamp of
    the first unless the second overwrites it.  The order of the
    statuses is not checked: a [sent] that arrives after a [delivered]
    puts the status back. *)
Theorem X19_last_event_sets_the_status
    (now1 now2 : Date) (mapper : WhatsAppMessageStatus.t -> GovsgMessageStatus)
    (body1 body2 messageId : JsValue) (m1 m2 : WhatsAppMessageStatus.t)
    (t : Table) (i : nat) (w : World) :
  In m1 [WhatsAppMessageStatus.sent; WhatsAppMessageStatus.delivered;
         WhatsAppMessageStatus.read; WhatsAppMessageStatus.deleted] ->
  In m2 [WhatsAppMessageStatus.sent; WhatsAppMessageStatus.delivered;
         WhatsAppMessageStatus.read; WhatsAppMessageStatus.deleted] ->
  eventMessageId body1 = Some messageId ->
  eventStatus body1 = Some (JString (WhatsAppMessageStatus.value m1)) ->
  eventMessageId body2 = Some messageId ->
  eventStatus body2 = Some (JString (WhatsAppMessageStatus.value m2)) ->
  find_row messageId (table_of t w) = Some i ->
  find_row messageId (table_of (other t) w) = None ->
  exists r w1 w2,
    table_of t w !! i = Some r /\
    parseTemplateMessageWebhook now1 mapper body1 w = (Ok tt, w1) /\
    parseTemplateMessageWebhook now2 mapper body2 w1 = (Ok tt, w2) /\
    table_of t w2 =
      <[i := stamped now2 (mapper m2) m2 (stamped now1 (mapper m1) m1 r)]> (table_of t w) /\
    table_of (other t) w2 = table_of (other t) w /\
    status (stamped now2 (mapper m2) m2 (stamped now1 (mapper m1) m1 r)) = mapper m2.
Proof.
  intros Hm1 Hm2 Hid1 Hst1 Hid2 Hst2 Fi Fn.
  destruct (status_update_run now1 mapper body1 messageId m1 t i w Hm1 Hid1 Hst1 Fi Fn)
    as (r & f1 & w1 & L & K & E1 & (T1 & O1 & _) & _).
  destruct (reconcile_keeps_keys now1 mapper body1 w) as (r0 & w0 & E0 & _ & _ & F).
  rewrite E1 in E0. injection E0 as <- <-.
  assert (Fi1 : find_row messageId (table_of t w1) = Some i) by now rewrite F.
  assert (Fn1 : find_row messageId (table_of (other t) w1) = None) by now rewrite F.
  destruct (status_update_run now2 mapper body2 messageId m2 t i w1 Hm2 Hid2 Hst2 Fi1 Fn1)
    as (r' & f2 & w2 & L' & _ & E2 & (T2 & O2 & _) & _).
  assert (Hr' : r' = stamped now1 (mapper m1) m1 r).
  { rewrite T1 in L'. rewrite list_lookup_insert_eq in L'.
    - now injection L'.
    - apply lookup_lt_Some in L. exact L. }
  subst r'. exists r, w1, w2.
  split; [exact L |]. split; [exact E1 |]. split; [exact E2 |].
  split; [rewrite T2, T1; apply list_insert_insert_eq |].
  split; [now rewrite O2, O1 |].
  simpl in Hm2. destruct Hm2 as [<-|[<-|[<-|[<-|[]]]]]; reflexivity.
Qed.

(** An instance of X19: [delivered], then a late [sent], for [m1]. *)
Lemma X19_last_event_sets_the_status_witness :
  In WhatsAppMessageStatus.delivered
    [WhatsAppMessageStatus.sent; WhatsAppMessageStatus.delivered;
     WhatsAppMessageStatus.read; WhatsAppMessageStatus.deleted] /\
  In WhatsAppMessageStatus.sent
    [WhatsAppMessageStatus.sent; WhatsAppMessageStatus.delivered;
     WhatsAppMessageStatus.read; WhatsAppMessageStatus.deleted] /\
  eventMessageId (status_webhook "m1" "delivered") = Some (JString "m1") /\
  eventStatus (status_webhook "m1" "delivered")
    = Some (JString (WhatsAppMessageStatus.value WhatsAppMessageStatus.delivered)) /\
  eventMessageId (status_webhook "m1" "sent") = Some (JString "m1") /\
  eventStatus (status_webhook "m1" "sent")
    = Some (JString (WhatsAppMessageStatus.value WhatsAppMessageStatus.sent)) /\
  find_row (JString "m1") (table_of Ordinary sample_world) = Some 1 /\
  find_row (JString "m1") (table_of (other Ordinary) sample_world) = None /\
  exists r w1 w2,
    table_of Ordinary sample_world !! 1 = Some r /\
    parseTemplateMessageWebhook sample_now sample_mapper
      (status_webhook "m1" "delivered") sample_world = (Ok tt, w1) /\
    parseTemplateMessageWebhook (sample_now + 5)%Z sample_mapper
      (status_webhook "m1" "sent") w1 = (Ok tt, w2) /\
    table_of Ordinary w2 =
      <[1 := stamped (sample_now + 5)%Z "SENT" WhatsAppMessageStatus.sent
               (stamped sample_now "DELIVERED" WhatsAppMessageStatus.delivered r)]>
        (table_of Ordinary sample_world) /\
    table_of (other Ordinary) w2 = table_of (other Ordinary) sample_world /\
    status (stamped (sample_now + 5)%Z "SENT" WhatsAppMessageStatus.sent
              (stamped sample_now "DELIVERED" WhatsAppMessageStatus.delivered r))
      = "SENT".
Proof.
  assert (I1 : In WhatsAppMessageStatus.delivered
                 [WhatsAppMessageStatus.sent; WhatsAppMessageStatus.delivered;
                  WhatsAppMessageStatus.read; WhatsAppMessageStatus.deleted])
    by (simpl; tauto).
  assert (I2 : In WhatsAppMessageStatus.sent
                 [WhatsAppMessageStatus.sent; WhatsAppMessageStatus.delivered;
                  WhatsAppMessageStatus.read; WhatsAppMessageStatus.deleted])
    by (simpl; tauto).
  split; [exact I1 |]. split; [exact I2 |].
  repeat (split; [reflexivity |]).
  exact (X19_last_event_sets_the_status sample_now (sample_now + 5)%Z sample_mapper
           (status_webhook "m1" "delivered") (status_webhook "m1" "sent") (JString "m1")
           WhatsAppMessageStatus.delivered WhatsAppMessageStatus.sent
           Ordinary 1 sample_world I1 I2 eq_refl eq_refl eq_refl eq_refl eq_refl eq_refl).
Defined.
